(** * The invoicing store: a shallow embedding of the synchronisation core

    The store module ([useSupabaseStore] of lib/supabase-store: the
    zustand store with its backend calls) and the submit handler of the
    invoice form ([InvoiceForm]), embedded as executable Rocq functions,
    and the properties of the specification checked against them.

    Conventions.
    - A JavaScript number that the program only uses as a count or as an
      amount of money is an integer of [Z]; [parseFloat] of such a column
      is the identity.
    - A value that may be [null] or [undefined] is an [option]; the
      truthiness tests of the source ([x || d], [!x]) are written out with
      [orElse], [orUndefined] and [falsy].
    - The operations are asynchronous functions that read and write the
      store, the backend tables, the browser's local storage, the console
      and the toast list. They are functions in a state-and-exception
      monad over [World]. One operation runs without another operation or
      another session interleaving.
    - What the backend and the clock do is not under the program's
      control: an [Env] says which backend calls fail (and with which
      message), what the clock reads and which identifiers are generated.
      Every theorem quantifies over all environments. *)

From Stdlib Require Import ZArith Lia Ascii String Decimal.
From stdpp Require Import base option list strings gmap fin_maps.

Local Open Scope string_scope.
Local Open Scope Z_scope.

(** ** JavaScript values *)

(** [!s] for a string. *)
Definition falsy (s : string) : bool := bool_decide (s = "").

(** [x || d] where [x] is a string that may be null. *)
Definition orElse (x : option string) (d : string) : string :=
  match x with
  | Some s => if falsy s then d else s
  | None => d
  end.

(** [x || undefined] and [x || null]: an empty string becomes absent. *)
Definition orUndefined (x : option string) : option string :=
  match x with
  | Some s => if falsy s then None else Some s
  | None => None
  end.

(** [a || b || null] on strings that may be null. *)
Definition orChain (a b : option string) : option string :=
  match orUndefined a with
  | Some s => Some s
  | None => orUndefined b
  end.

(** ASCII white space, as removed by [String.prototype.trim]. *)
Definition isSpace (c : ascii) : bool :=
  let n := nat_of_ascii c in
  (Nat.eqb n 32 || (Nat.leb 9 n && Nat.leb n 13))%bool.

Fixpoint trimStart (s : string) : string :=
  match s with
  | String c r => if isSpace c then trimStart r else s
  | EmptyString => EmptyString
  end.

Definition trim (s : string) : string :=
  String.rev (trimStart (String.rev (trimStart s))).

(** [s.split(sep)[0]] for a one-character separator. *)
Fixpoint splitHead (sep : ascii) (s : string) : string :=
  match s with
  | String c r => if Ascii.eqb c sep then EmptyString else String c (splitHead sep r)
  | EmptyString => EmptyString
  end.

(** [n.toString()] for a natural number. *)
Fixpoint digits (d : Decimal.uint) : string :=
  match d with
  | Decimal.Nil => ""
  | Decimal.D0 r => String "0" (digits r)
  | Decimal.D1 r => String "1" (digits r)
  | Decimal.D2 r => String "2" (digits r)
  | Decimal.D3 r => String "3" (digits r)
  | Decimal.D4 r => String "4" (digits r)
  | Decimal.D5 r => String "5" (digits r)
  | Decimal.D6 r => String "6" (digits r)
  | Decimal.D7 r => String "7" (digits r)
  | Decimal.D8 r => String "8" (digits r)
  | Decimal.D9 r => String "9" (digits r)
  end.

Definition toString (n : nat) : string :=
  match Nat.to_uint n with
  | Decimal.Nil => "0"
  | d => digits d
  end.

Fixpoint repeatChar (n : nat) (c : ascii) : string :=
  match n with
  | O => ""
  | S k => String c (repeatChar k c)
  end.

(** [s.padStart(n, c)] for a one-character filler. *)
Definition padStart (n : nat) (c : ascii) (s : string) : string :=
  repeatChar (n - String.length s) c +:+ s.

(** ** The clock *)

(** What the program observes of a [Date]: its UTC fields, through
    [toISOString], and its local hours and minutes. *)
Module Date.
Record t := mk {
  utcFullYear : nat;
  utcMonth : nat;          (* 0 to 11, as [getUTCMonth] *)
  utcDate : nat;
  utcHours : nat;
  utcMinutes : nat;
  utcSeconds : nat;
  utcMilliseconds : nat;
  getHours : nat;          (* local time *)
  getMinutes : nat         (* local time *)
}.

Definition isoDate (d : t) : string :=
  padStart 4 "0" (toString (utcFullYear d)) +:+ "-" +:+
  padStart 2 "0" (toString (S (utcMonth d))) +:+ "-" +:+
  padStart 2 "0" (toString (utcDate d)).

Definition isoTime (d : t) : string :=
  padStart 2 "0" (toString (utcHours d)) +:+ ":" +:+
  padStart 2 "0" (toString (utcMinutes d)) +:+ ":" +:+
  padStart 2 "0" (toString (utcSeconds d)) +:+ "." +:+
  padStart 3 "0" (toString (utcMilliseconds d)) +:+ "Z".

(** [YYYY-MM-DDTHH:mm:ss.sssZ] *)
Definition toISOString (d : t) : string :=
  isoDate d +:+ String "T" (isoTime d).
End Date.

(** ** The data model (lib/types.ts) *)

Inductive Status := pending | completed | cancelled.

Global Instance Status_eq_dec : EqDecision Status.
Proof. solve_decision. Defined.

Module Client.
Record t := mk {
  id : string;
  name : string;
  phone : string;
  address : string;
  visitCount : Z;
  rewardClaimed : bool;
  lastVisit : string;
  createdAt : string;
  updatedAt : string
}.
End Client.

Module InvoiceItem.
Record t := mk {
  id : string;
  description : string;
  quantity : Z;
  unitPrice : Z;
  totalPrice : Z
}.
End InvoiceItem.

Module Invoice.
Record t := mk {
  id : string;
  client : Client.t;
  items : list InvoiceItem.t;
  total : Z;
  paymentMethod : string;
  status : Status;
  pickupDate : option string;
  pickupTime : option string;
  notes : option string;
  createdByName : option string;
  createdByPhone : option string;
  createdAt : string;
  updatedAt : string
}.
End Invoice.

(** The argument of [addInvoice]: [Omit<Invoice, "createdAt" | "updatedAt">].
    The source guards [client?.id], so the client may be absent. *)
Module InvoiceData.
Record t := mk {
  id : string;
  client : option Client.t;
  items : list InvoiceItem.t;
  total : Z;
  paymentMethod : string;
  status : Status;
  pickupDate : option string;
  pickupTime : option string;
  notes : option string
}.
End InvoiceData.

(** The argument of [addClient]: [Omit<Client, "id" | "createdAt" | "updatedAt">]. *)
Module ClientData.
Record t := mk {
  name : string;
  phone : string;
  address : option string;
  visitCount : Z;
  rewardClaimed : bool;
  lastVisit : string
}.
End ClientData.

(** ** The backend rows (the [Database] type of lib/types.ts) *)

Module ClientRow.
Record t := mk {
  id : string;
  name : string;
  phone : string;
  address : option string;
  visit_count : Z;
  reward_claimed : bool;
  last_visit : option string;
  created_at : string;
  updated_at : string
}.
End ClientRow.

Module InvoiceRow.
Record t := mk {
  id : string;
  client_id : string;
  total : Z;
  payment_method : string;
  status : Status;
  pickup_date : option string;
  pickup_time : option string;
  notes : option string;
  created_by_name : option string;
  created_by_phone : option string;
  created_at : string;
  updated_at : string
}.
End InvoiceRow.

Module ItemRow.
Record t := mk {
  id : string;
  invoice_id : string;
  description : string;
  quantity : Z;
  unit_price : Z;
  total_price : Z;
  created_at : string
}.
End ItemRow.

Module UserRow.
Record t := mk {
  name : option string;
  phone : string
}.
End UserRow.

(** ** What the program sends to the backend *)

Module ClientInsert.
Record t := mk {
  name : string;
  phone : string;
  address : option string;
  visit_count : Z;
  reward_claimed : bool;
  last_visit : string
}.
End ClientInsert.

Module InvoiceInsert.
Record t := mk {
  id : string;
  client_id : string;
  total : Z;
  payment_method : string;
  status : Status;
  pickup_date : option string;
  pickup_time : option string;
  notes : option string;
  created_by_name : option string;
  created_by_phone : option string
}.
End InvoiceInsert.

Module ItemInsert.
Record t := mk {
  invoice_id : string;
  description : string;
  quantity : Z;
  unit_price : Z;
  total_price : Z
}.
End ItemInsert.

(** [updateData] of [updateInvoice]: a field is [None] when the patch does
    not carry it; for a nullable column the inner option is the value. *)
Module InvoiceUpdate.
Record t := mk {
  client_id : option string;
  total : option Z;
  payment_method : option string;
  status : option Status;
  pickup_date : option (option string);
  pickup_time : option (option string);
  notes : option (option string)
}.
End InvoiceUpdate.

(** [Partial<Invoice>], the argument of [updateInvoice]. *)
Module InvoicePatch.
Record t := mk {
  client : option Client.t;
  items : option (list InvoiceItem.t);
  total : option Z;
  paymentMethod : option string;
  status : option Status;
  pickupDate : option string;
  pickupTime : option string;
  notes : option string
}.
End InvoicePatch.

(** The [changes] column of an audit row. *)
Inductive Changes :=
  | NoChanges
  | ClientCreated (name phone : string)
  | InvoiceCreated (total : Z) (status : Status)
  | InvoiceUpdated (updates : InvoicePatch.t)
  | StatusChanged (status : Status).

Module AuditRow.
Record t := mk {
  action : string;
  entity_type : string;
  entity_id : string;
  actor_phone : option string;
  actor_name : option string;
  changes : Changes
}.
End AuditRow.

(** One statement sent to the backend. *)
Inductive Call :=
  | SelectUser (phone : string)
  | SelectClients (ordered : bool)
  | SelectInvoices
  | SelectItems
  | InsertClient (row : ClientInsert.t)
  | InsertInvoice (row : InvoiceInsert.t)
  | InsertItems (rows : list ItemInsert.t)
  | UpdateClientVisit (id : string) (visit_count : Z) (last_visit : string)
  | UpdateInvoice (id : string) (patch : InvoiceUpdate.t)
  | UpdateInvoiceStatus (id : string) (status : Status) (updated_at : string)
  | DeleteInvoice (id : string)
  | DeleteItems (invoice_id : string)
  | InsertAudit (row : AuditRow.t).

(** [{ data, error }] as the backend client returns it. *)
Inductive Response (A : Type) :=
  | Data (data : A)
  | Failure (message : string).
Arguments Data {A} data.
Arguments Failure {A} message.

(** ** The world the operations run in *)

(** The backend table set. A table lists its rows newest first, which is
    the order [order("created_at", { ascending: false })] asks for. *)
Module Backend.
Record t := mk {
  users : list UserRow.t;
  clients : list ClientRow.t;
  invoices : list InvoiceRow.t;
  invoice_items : list ItemRow.t;
  audit_logs : list AuditRow.t
}.

Definition set_clients (f : list ClientRow.t → list ClientRow.t) (b : t) : t :=
  mk (users b) (f (clients b)) (invoices b) (invoice_items b) (audit_logs b).
Definition set_invoices (f : list InvoiceRow.t → list InvoiceRow.t) (b : t) : t :=
  mk (users b) (clients b) (f (invoices b)) (invoice_items b) (audit_logs b).
Definition set_invoice_items (f : list ItemRow.t → list ItemRow.t) (b : t) : t :=
  mk (users b) (clients b) (invoices b) (f (invoice_items b)) (audit_logs b).
Definition set_audit_logs (f : list AuditRow.t → list AuditRow.t) (b : t) : t :=
  mk (users b) (clients b) (invoices b) (invoice_items b) (f (audit_logs b)).
End Backend.

(** The state of the zustand store (the realtime channel handle is left
    out: no operation below reads or writes it). *)
Module Store.
Record t := mk {
  invoices : list Invoice.t;
  clients : list Client.t;
  currentUserPhone : option string;
  currentUserName : option string;
  loading : bool;
  error : option string;
  isInitialized : bool;
  databaseReady : bool
}.

Definition set_invoices (v : list Invoice.t) (s : t) : t :=
  mk v (clients s) (currentUserPhone s) (currentUserName s) (loading s)
     (error s) (isInitialized s) (databaseReady s).
Definition set_clients (v : list Client.t) (s : t) : t :=
  mk (invoices s) v (currentUserPhone s) (currentUserName s) (loading s)
     (error s) (isInitialized s) (databaseReady s).
Definition set_user (phone name : option string) (s : t) : t :=
  mk (invoices s) (clients s) phone name (loading s)
     (error s) (isInitialized s) (databaseReady s).
Definition set_loading (v : bool) (s : t) : t :=
  mk (invoices s) (clients s) (currentUserPhone s) (currentUserName s) v
     (error s) (isInitialized s) (databaseReady s).
Definition set_error (v : option string) (s : t) : t :=
  mk (invoices s) (clients s) (currentUserPhone s) (currentUserName s) (loading s)
     v (isInitialized s) (databaseReady s).
End Store.

Inductive Variant := default_variant | destructive.

Module Toast.
Record t := mk {
  title : string;
  description : option string;
  variant : Variant
}.
End Toast.

Inductive Level := warn | error.

(** A [console.warn] or [console.error] line: its text and the message of
    the error object printed with it. The [console.log] progress lines are
    not recorded. *)
Module Log.
Record t := mk {
  level : Level;
  text : string;
  detail : option string
}.
End Log.

(** The values of the invoice form (the zod schema's input). *)
Module FormItem.
Record t := mk {
  description : string;
  quantity : Z;
  unitPrice : Z
}.
End FormItem.

Module InvoiceFormData.
Record t := mk {
  clientName : string;
  clientPhone : string;
  clientAddress : option string;
  items : list FormItem.t;
  paymentMethod : string;
  pickupDate : option string;
  pickupTime : option string;
  notes : option string;
  status : Status
}.
End InvoiceFormData.

(** [calls], [toasts] and [console] list the newest entry first. *)
Module World.
Record t := mk {
  backend : Backend.t;
  store : Store.t;
  localStorage : gmap string string;
  form : InvoiceFormData.t;
  calls : list Call;
  toasts : list Toast.t;
  console : list Log.t
}.

Definition set_backend (f : Backend.t → Backend.t) (w : t) : t :=
  mk (f (backend w)) (store w) (localStorage w) (form w) (calls w) (toasts w) (console w).
Definition set_store (f : Store.t → Store.t) (w : t) : t :=
  mk (backend w) (f (store w)) (localStorage w) (form w) (calls w) (toasts w) (console w).
Definition set_localStorage (f : gmap string string → gmap string string) (w : t) : t :=
  mk (backend w) (store w) (f (localStorage w)) (form w) (calls w) (toasts w) (console w).
Definition add_call (c : Call) (w : t) : t :=
  mk (backend w) (store w) (localStorage w) (form w) (c :: calls w) (toasts w) (console w).
Definition add_toast (x : Toast.t) (w : t) : t :=
  mk (backend w) (store w) (localStorage w) (form w) (calls w) (x :: toasts w) (console w).
Definition add_log (x : Log.t) (w : t) : t :=
  mk (backend w) (store w) (localStorage w) (form w) (calls w) (toasts w) (x :: console w).
End World.

(** What the program does not control. [fault n] is the error message of
    the [n]-th backend call of the run when that call fails; [clock n] is
    what [new Date()] reads once [n] backend calls have been made;
    [uuid n] is the identifier generated at that point (by the backend for
    a new row, by [crypto.randomUUID] in the form) and [invoiceId n] is
    what [generateInvoiceId] of lib/utils, which is not among the sources,
    returns there. *)
Module Env.
Record t := mk {
  fault : nat → option string;
  clock : nat → Date.t;
  uuid : nat → nat → string;
  invoiceId : nat → string
}.
End Env.

(** ** The monad of the asynchronous operations *)

Inductive Outcome (A : Type) :=
  | Returned (value : A)
  | Thrown (message : string).
Arguments Returned {A} value.
Arguments Thrown {A} message.

Definition Async (A : Type) : Type := World.t → Outcome A * World.t.

Global Instance Async_ret : MRet Async := λ A a w, (Returned a, w).

Global Instance Async_bind : MBind Async := λ A B f m w,
  match m w with
  | (Returned a, w') => f a w'
  | (Thrown e, w') => (Thrown e, w')
  end.

(** [throw new Error(message)] *)
Definition throw {A} (message : string) : Async A := λ w, (Thrown message, w).

(** [try { body } catch (error) { handler(error.message) }] *)
Definition tryCatch {A} (body : Async A) (handler : string → Async A) : Async A := λ w,
  match body w with
  | (Returned a, w') => (Returned a, w')
  | (Thrown e, w') => handler e w'
  end.

Definition get : Async Store.t := λ w, (Returned (World.store w), w).
Definition set (f : Store.t → Store.t) : Async unit := λ w, (Returned tt, World.set_store f w).
Definition toast (title : string) (description : option string) (v : Variant) : Async unit :=
  λ w, (Returned tt, World.add_toast (Toast.mk title description v) w).
Definition consoleWarn (text : string) (detail : option string) : Async unit :=
  λ w, (Returned tt, World.add_log (Log.mk warn text detail) w).
Definition consoleError (text : string) (detail : option string) : Async unit :=
  λ w, (Returned tt, World.add_log (Log.mk error text detail) w).
Definition localStorage_setItem (key value : string) : Async unit :=
  λ w, (Returned tt, World.set_localStorage (insert key value) w).
Definition watchItems : Async (list FormItem.t) :=
  λ w, (Returned (InvoiceFormData.items (World.form w)), w).

(** ** The mapping from rows to the domain model *)

(** [n || 0] on a number. *)
Definition orZero (n : Z) : Z := if Z.eqb n 0 then 0 else n.

(** The client object literal that [loadClients], [addClient] and
    [loadInvoices] each build from a client row: the snake_case columns
    become the camelCase fields, an absent address becomes the empty
    string and an absent last visit becomes the current time [now]. *)
Definition toClient (now : string) (client : ClientRow.t) : Client.t :=
  {| Client.id := ClientRow.id client;
     Client.name := ClientRow.name client;
     Client.phone := ClientRow.phone client;
     Client.address := orElse (ClientRow.address client) "";
     Client.visitCount := orZero (ClientRow.visit_count client);
     Client.rewardClaimed := ClientRow.reward_claimed client || false;
     Client.lastVisit := orElse (ClientRow.last_visit client) now;
     Client.createdAt := ClientRow.created_at client;
     Client.updatedAt := ClientRow.updated_at client |}.

(** [parseFloat] of a numeric column. *)
Definition parseFloat (n : Z) : Z := n.

Definition toItem (item : ItemRow.t) : InvoiceItem.t :=
  {| InvoiceItem.id := ItemRow.id item;
     InvoiceItem.description := ItemRow.description item;
     InvoiceItem.quantity := ItemRow.quantity item;
     InvoiceItem.unitPrice := parseFloat (ItemRow.unit_price item);
     InvoiceItem.totalPrice := parseFloat (ItemRow.total_price item) |}.

(** [new Map(clientsData.map((client) => [client.id, client]))]: a later
    row replaces an earlier one with the same id. *)
Definition clientsMap (clientsData : list ClientRow.t) : gmap string ClientRow.t :=
  foldl (λ m client, <[ClientRow.id client := client]> m) ∅ clientsData.

(** The [forEach] that groups the item rows by invoice id, each group in
    the order of the fetched rows. *)
Definition itemsMap (itemsData : list ItemRow.t) : gmap string (list ItemRow.t) :=
  foldl (λ (m : gmap string (list ItemRow.t)) item,
           let m' := match m !! ItemRow.invoice_id item with
                     | None => <[ItemRow.invoice_id item := []]> m
                     | Some _ => m
                     end in
           <[ItemRow.invoice_id item :=
               (default [] (m' !! ItemRow.invoice_id item) ++ [item])%list]> m')
        ∅ itemsData.

(** The callback of [invoicesData.map] in [loadInvoices]; [None] is the
    [null] returned for a header whose client is not found. *)
Definition buildInvoice (now : string) (cm : gmap string ClientRow.t)
    (im : gmap string (list ItemRow.t)) (invoice : InvoiceRow.t) : option Invoice.t :=
  let client := cm !! InvoiceRow.client_id invoice in
  let items := default [] (im !! InvoiceRow.id invoice) in
  match client with
  | None => None
  | Some client =>
      Some {| Invoice.id := InvoiceRow.id invoice;
              Invoice.client := toClient now client;
              Invoice.items := map toItem items;
              Invoice.total := parseFloat (InvoiceRow.total invoice);
              Invoice.paymentMethod := InvoiceRow.payment_method invoice;
              Invoice.status := InvoiceRow.status invoice;
              Invoice.pickupDate := orUndefined (InvoiceRow.pickup_date invoice);
              Invoice.pickupTime := orUndefined (InvoiceRow.pickup_time invoice);
              Invoice.notes := orUndefined (InvoiceRow.notes invoice);
              Invoice.createdByName := orUndefined (InvoiceRow.created_by_name invoice);
              Invoice.createdByPhone := orUndefined (InvoiceRow.created_by_phone invoice);
              Invoice.createdAt := InvoiceRow.created_at invoice;
              Invoice.updatedAt := InvoiceRow.updated_at invoice |}
  end.

(** [.filter(Boolean)] on an array of objects and nulls. *)
Fixpoint filterBoolean {A} (l : list (option A)) : list A :=
  match l with
  | [] => []
  | Some x :: r => x :: filterBoolean r
  | None :: r => filterBoolean r
  end.

(** The value of [invoices] that [loadInvoices] assigns to the store. *)
Definition buildInvoices (now : string) (invoicesData : list InvoiceRow.t)
    (clientsData : list ClientRow.t) (itemsData : list ItemRow.t) : list Invoice.t :=
  filterBoolean
    (map (buildInvoice now (clientsMap clientsData) (itemsMap itemsData)) invoicesData).

(** The [console.warn] lines of that callback, one for each header whose
    client is not found. *)
Definition missingClientWarnings (cm : gmap string ClientRow.t)
    (invoicesData : list InvoiceRow.t) : list Log.t :=
  flat_map (λ invoice,
              match cm !! InvoiceRow.client_id invoice with
              | None => [Log.mk warn ("Client not found for invoice " +:+ InvoiceRow.id invoice) None]
              | Some _ => []
              end) invoicesData.

Definition consoleAll (lines : list Log.t) : Async unit :=
  λ w, (Returned tt, fold_left (λ w' x, World.add_log x w') lines w).

(** ** The backend statements *)

Section Operations.
Variable env : Env.t.

(** [new Date()] *)
Definition newDate : Async Date.t :=
  λ w, (Returned (Env.clock env (length (World.calls w))), w).

(** [new Date().toISOString()] *)
Definition nowISO : Async string :=
  now ← newDate; mret (Date.toISOString now).

(** The number of backend calls made so far, which indexes the
    generated identifiers. *)
Definition callCount : Async nat :=
  λ w, (Returned (length (World.calls w)), w).

(** One awaited backend statement. The statement is recorded; when the
    environment makes it fail it leaves the tables as they are and
    answers with the error, otherwise [run] gives its answer and the new
    tables. The backend client never throws. A statement that the backend
    refuses, for a key that exists already or a row that is referred to,
    is a failure that the environment decides on, like a lost
    connection. *)
Definition request {A} (c : Call)
    (run : nat → Backend.t → Response A * Backend.t) : Async (Response A) :=
  λ w,
    let n := length (World.calls w) in
    match Env.fault env n with
    | Some message => (Returned (Failure message), World.add_call c w)
    | None =>
        let '(r, b) := run n (World.backend w) in
        (Returned r, World.add_call c (World.set_backend (λ _, b) w))
    end.

(** The backend's clock, for the columns it fills in by default. *)
Definition serverTime (n : nat) : string := Date.toISOString (Env.clock env n).

(** [.from("users").select("name, phone").eq("phone", phone).maybeSingle()] *)
Definition selectUser (phone : string) : Async (Response (option UserRow.t)) :=
  request (SelectUser phone) (λ _ b,
    (match List.filter (λ u, bool_decide (UserRow.phone u = phone)) (Backend.users b) with
     | [] => Data None
     | [u] => Data (Some u)
     | _ => Failure "JSON object requested, multiple (or no) rows returned"
     end, b)).

(** [.from("clients").select("*")], ordered by creation time descending
    when [ordered]. *)
Definition selectClients (ordered : bool) : Async (Response (list ClientRow.t)) :=
  request (SelectClients ordered) (λ _ b,
    (Data (if ordered then rev (Backend.clients b) else Backend.clients b), b)).

(** [.from("invoices").select("*").order("created_at", { ascending: false })] *)
Definition selectInvoices : Async (Response (list InvoiceRow.t)) :=
  request SelectInvoices (λ _ b, (Data (rev (Backend.invoices b)), b)).

(** [.from("invoice_items").select("*")] *)
Definition selectItems : Async (Response (list ItemRow.t)) :=
  request SelectItems (λ _ b, (Data (Backend.invoice_items b), b)).

(** [.from("clients").insert(row).select().single()] *)
Definition insertClient (row : ClientInsert.t) : Async (Response ClientRow.t) :=
  request (InsertClient row) (λ n b,
    let r := {| ClientRow.id := Env.uuid env n 0;
                ClientRow.name := ClientInsert.name row;
                ClientRow.phone := ClientInsert.phone row;
                ClientRow.address := ClientInsert.address row;
                ClientRow.visit_count := ClientInsert.visit_count row;
                ClientRow.reward_claimed := ClientInsert.reward_claimed row;
                ClientRow.last_visit := Some (ClientInsert.last_visit row);
                ClientRow.created_at := serverTime n;
                ClientRow.updated_at := serverTime n |} in
    (Data r, Backend.set_clients (λ l, l ++ [r])%list b)).

(** [.from("invoices").insert(row).select().single()] *)
Definition insertInvoice (row : InvoiceInsert.t) : Async (Response InvoiceRow.t) :=
  request (InsertInvoice row) (λ n b,
    let r := {| InvoiceRow.id := InvoiceInsert.id row;
                InvoiceRow.client_id := InvoiceInsert.client_id row;
                InvoiceRow.total := InvoiceInsert.total row;
                InvoiceRow.payment_method := InvoiceInsert.payment_method row;
                InvoiceRow.status := InvoiceInsert.status row;
                InvoiceRow.pickup_date := InvoiceInsert.pickup_date row;
                InvoiceRow.pickup_time := InvoiceInsert.pickup_time row;
                InvoiceRow.notes := InvoiceInsert.notes row;
                InvoiceRow.created_by_name := InvoiceInsert.created_by_name row;
                InvoiceRow.created_by_phone := InvoiceInsert.created_by_phone row;
                InvoiceRow.created_at := serverTime n;
                InvoiceRow.updated_at := serverTime n |} in
    (Data r, Backend.set_invoices (λ l, l ++ [r])%list b)).

Definition newItemRow (n i : nat) (row : ItemInsert.t) : ItemRow.t :=
  {| ItemRow.id := Env.uuid env n i;
     ItemRow.invoice_id := ItemInsert.invoice_id row;
     ItemRow.description := ItemInsert.description row;
     ItemRow.quantity := ItemInsert.quantity row;
     ItemRow.unit_price := ItemInsert.unit_price row;
     ItemRow.total_price := ItemInsert.total_price row;
     ItemRow.created_at := serverTime n |}.

(** [.from("invoice_items").insert(rows)] *)
Definition insertItems (rows : list ItemInsert.t) : Async (Response unit) :=
  request (InsertItems rows) (λ n b,
    (Data tt, Backend.set_invoice_items (λ l, l ++ imap (newItemRow n) rows)%list b)).

Definition patchClientVisit (id : string) (visit_count : Z) (last_visit : string)
    (c : ClientRow.t) : ClientRow.t :=
  if bool_decide (ClientRow.id c = id)
  then {| ClientRow.id := ClientRow.id c;
          ClientRow.name := ClientRow.name c;
          ClientRow.phone := ClientRow.phone c;
          ClientRow.address := ClientRow.address c;
          ClientRow.visit_count := visit_count;
          ClientRow.reward_claimed := ClientRow.reward_claimed c;
          ClientRow.last_visit := Some last_visit;
          ClientRow.created_at := ClientRow.created_at c;
          ClientRow.updated_at := ClientRow.updated_at c |}
  else c.

(** [.from("clients").update({ visit_count, last_visit }).eq("id", id)] *)
Definition updateClientVisit (id : string) (visit_count : Z) (last_visit : string)
    : Async (Response unit) :=
  request (UpdateClientVisit id visit_count last_visit) (λ _ b,
    (Data tt, Backend.set_clients (map (patchClientVisit id visit_count last_visit)) b)).

Definition patchInvoice (id : string) (p : InvoiceUpdate.t) (r : InvoiceRow.t)
    : InvoiceRow.t :=
  if bool_decide (InvoiceRow.id r = id)
  then {| InvoiceRow.id := InvoiceRow.id r;
          InvoiceRow.client_id := default (InvoiceRow.client_id r) (InvoiceUpdate.client_id p);
          InvoiceRow.total := default (InvoiceRow.total r) (InvoiceUpdate.total p);
          InvoiceRow.payment_method :=
            default (InvoiceRow.payment_method r) (InvoiceUpdate.payment_method p);
          InvoiceRow.status := default (InvoiceRow.status r) (InvoiceUpdate.status p);
          InvoiceRow.pickup_date :=
            default (InvoiceRow.pickup_date r) (InvoiceUpdate.pickup_date p);
          InvoiceRow.pickup_time :=
            default (InvoiceRow.pickup_time r) (InvoiceUpdate.pickup_time p);
          InvoiceRow.notes := default (InvoiceRow.notes r) (InvoiceUpdate.notes p);
          InvoiceRow.created_by_name := InvoiceRow.created_by_name r;
          InvoiceRow.created_by_phone := InvoiceRow.created_by_phone r;
          InvoiceRow.created_at := InvoiceRow.created_at r;
          InvoiceRow.updated_at := InvoiceRow.updated_at r |}
  else r.

(** [.from("invoices").update(updateData).eq("id", id)] *)
Definition updateInvoiceRow (id : string) (p : InvoiceUpdate.t) : Async (Response unit) :=
  request (UpdateInvoice id p) (λ _ b,
    (Data tt, Backend.set_invoices (map (patchInvoice id p)) b)).

Definition patchInvoiceStatus (id : string) (status : Status) (updated_at : string)
    (r : InvoiceRow.t) : InvoiceRow.t :=
  if bool_decide (InvoiceRow.id r = id)
  then {| InvoiceRow.id := InvoiceRow.id r;
          InvoiceRow.client_id := InvoiceRow.client_id r;
          InvoiceRow.total := InvoiceRow.total r;
          InvoiceRow.payment_method := InvoiceRow.payment_method r;
          InvoiceRow.status := status;
          InvoiceRow.pickup_date := InvoiceRow.pickup_date r;
          InvoiceRow.pickup_time := InvoiceRow.pickup_time r;
          InvoiceRow.notes := InvoiceRow.notes r;
          InvoiceRow.created_by_name := InvoiceRow.created_by_name r;
          InvoiceRow.created_by_phone := InvoiceRow.created_by_phone r;
          InvoiceRow.created_at := InvoiceRow.created_at r;
          InvoiceRow.updated_at := updated_at |}
  else r.

(** [.from("invoices").update({ status, updated_at }).eq("id", id)] *)
Definition updateInvoiceStatusRow (id : string) (status : Status) (updated_at : string)
    : Async (Response unit) :=
  request (UpdateInvoiceStatus id status updated_at) (λ _ b,
    (Data tt, Backend.set_invoices (map (patchInvoiceStatus id status updated_at)) b)).

(** [.from("invoices").delete().eq("id", id)]; the item rows of the
    invoice follow by the backend's cascade. *)
Definition deleteInvoiceRow (id : string) : Async (Response unit) :=
  request (DeleteInvoice id) (λ _ b,
    (Data tt,
     Backend.set_invoice_items
       (List.filter (λ i, negb (bool_decide (ItemRow.invoice_id i = id))))
       (Backend.set_invoices
          (List.filter (λ r, negb (bool_decide (InvoiceRow.id r = id)))) b))).

(** [.from("invoice_items").delete().eq("invoice_id", id)] *)
Definition deleteItems (id : string) : Async (Response unit) :=
  request (DeleteItems id) (λ _ b,
    (Data tt,
     Backend.set_invoice_items
       (List.filter (λ i, negb (bool_decide (ItemRow.invoice_id i = id)))) b)).

(** [try { await supabase.from("audit_logs").insert(row) } catch {}] with
    the actor read from the store. *)
Definition auditLog (action entity_type entity_id : string) (changes : Changes)
    : Async unit :=
  s ← get;
  let row := {| AuditRow.action := action;
                AuditRow.entity_type := entity_type;
                AuditRow.entity_id := entity_id;
                AuditRow.actor_phone := Store.currentUserPhone s;
                AuditRow.actor_name := Store.currentUserName s;
                AuditRow.changes := changes |} in
  _ ← request (InsertAudit row) (λ _ b,
        (Data tt, Backend.set_audit_logs (λ l, l ++ [row])%list b));
  mret tt.

(** ** The store operations *)

(** The code runs in the browser ([typeof window !== "undefined"]), so
    local storage is there. *)
Definition setCurrentUser (phone : string) (name : option string) : Async unit :=
  let normalized := trim phone in
  tryCatch
    (r ← selectUser normalized;
     existing ← match r with
                | Failure message =>
                    consoleWarn "User lookup failed" (Some message);; mret None
                | Data existing => mret existing
                end;
     match existing with
     | None =>
         toast "Account not found"
               (Some "Ask admin to create your account first.") destructive
     | Some existing =>
         let resolvedName := orChain (UserRow.name existing) name in
         localStorage_setItem "ims_user_phone" normalized;;
         match resolvedName with
         | Some n => localStorage_setItem "ims_user_name" n
         | None => mret tt
         end;;
         set (Store.set_user (Some normalized) resolvedName)
     end)
    (λ e,
       consoleWarn "Failed to ensure user record" (Some e);;
       toast "Login failed" (Some "Please try again.") destructive).

Definition loadClients : Async unit :=
  tryCatch
    (r ← selectClients true;
     data ← match r with
            | Failure message =>
                consoleError "Error loading clients:" (Some message);;
                throw ("Failed to load clients: " +:+ message)
            | Data data => mret data
            end;
     now ← nowISO;
     let clients := map (toClient now) data in
     set (Store.set_clients clients))
    (λ e, consoleError "Error loading clients:" (Some e);; throw e).

Definition addClient (clientData : ClientData.t) : Async (option Client.t) :=
  tryCatch
    (set (λ s, Store.set_error None (Store.set_loading true s));;
     now ← nowISO;
     r ← insertClient
           {| ClientInsert.name := ClientData.name clientData;
              ClientInsert.phone := ClientData.phone clientData;
              ClientInsert.address := orUndefined (ClientData.address clientData);
              ClientInsert.visit_count := orZero (ClientData.visitCount clientData);
              ClientInsert.reward_claimed := ClientData.rewardClaimed clientData || false;
              ClientInsert.last_visit := orElse (Some (ClientData.lastVisit clientData)) now |};
     data ← match r with
            | Failure message =>
                consoleError "Error adding client:" (Some message);;
                throw ("Failed to add client: " +:+ message)
            | Data data => mret data
            end;
     now' ← nowISO;
     let newClient := toClient now' data in
     set (λ s, Store.set_loading false (Store.set_clients (newClient :: Store.clients s) s));;
     toast "Client added successfully!"
           (Some (Client.name newClient +:+ " has been added to your client list."))
           default_variant;;
     auditLog "create" "client" (Client.id newClient)
              (ClientCreated (Client.name newClient) (Client.phone newClient));;
     mret (Some newClient))
    (λ e,
       consoleError "Error adding client:" (Some e);;
       let errorMessage := orElse (Some e) "Failed to add client" in
       set (λ s, Store.set_loading false (Store.set_error (Some errorMessage) s));;
       toast "Error adding client" (Some errorMessage) destructive;;
       mret None).

Definition loadInvoices : Async unit :=
  tryCatch
    (r ← selectInvoices;
     invoicesData ← match r with
                    | Failure message =>
                        consoleError "Error loading invoices:" (Some message);;
                        throw ("Failed to load invoices: " +:+ message)
                    | Data data => mret data
                    end;
     if Nat.eqb (length invoicesData) 0
     then set (Store.set_invoices [])
     else
       r ← selectClients false;
       clientsData ← match r with
                     | Failure message => throw ("Failed to load clients: " +:+ message)
                     | Data data => mret data
                     end;
       r ← selectItems;
       itemsData ← match r with
                   | Failure message =>
                       throw ("Failed to load invoice items: " +:+ message)
                   | Data data => mret data
                   end;
       now ← nowISO;
       consoleAll (missingClientWarnings (clientsMap clientsData) invoicesData);;
       let invoices := buildInvoices now invoicesData clientsData itemsData in
       set (Store.set_invoices invoices))
    (λ e, consoleError "Error loading invoices:" (Some e);; throw e).

Definition itemsToInsert (id : string) (items : list InvoiceItem.t) : list ItemInsert.t :=
  map (λ item, {| ItemInsert.invoice_id := id;
                  ItemInsert.description := InvoiceItem.description item;
                  ItemInsert.quantity := InvoiceItem.quantity item;
                  ItemInsert.unit_price := InvoiceItem.unitPrice item;
                  ItemInsert.total_price := InvoiceItem.totalPrice item |}) items.

Definition addInvoice (invoiceData : InvoiceData.t) : Async unit :=
  tryCatch
    (set (λ s, Store.set_error None (Store.set_loading true s));;
     (if falsy (InvoiceData.id invoiceData)
      then throw "Invoice ID is required" else mret tt);;
     client ← match InvoiceData.client invoiceData with
              | None => throw "Client ID is required"
              | Some client =>
                  if falsy (Client.id client)
                  then throw "Client ID is required" else mret client
              end;
     (if Nat.eqb (length (InvoiceData.items invoiceData)) 0
      then throw "Invoice items are required" else mret tt);;
     s ← get;
     r ← insertInvoice
           {| InvoiceInsert.id := InvoiceData.id invoiceData;
              InvoiceInsert.client_id := Client.id client;
              InvoiceInsert.total := InvoiceData.total invoiceData;
              InvoiceInsert.payment_method := InvoiceData.paymentMethod invoiceData;
              InvoiceInsert.status := InvoiceData.status invoiceData;
              InvoiceInsert.pickup_date := orUndefined (InvoiceData.pickupDate invoiceData);
              InvoiceInsert.pickup_time := orUndefined (InvoiceData.pickupTime invoiceData);
              InvoiceInsert.notes := orUndefined (InvoiceData.notes invoiceData);
              InvoiceInsert.created_by_name := orUndefined (Store.currentUserName s);
              InvoiceInsert.created_by_phone := orUndefined (Store.currentUserPhone s) |};
     match r with
     | Failure message =>
         consoleError "Invoice insert error:" (Some message);;
         throw ("Failed to create invoice: " +:+ message)
     | Data _ => mret tt
     end;;
     (if Nat.ltb 0 (length (InvoiceData.items invoiceData))
      then
        r ← insertItems (itemsToInsert (InvoiceData.id invoiceData)
                           (InvoiceData.items invoiceData));
        match r with
        | Failure message =>
            consoleError "Invoice items insert error:" (Some message);;
            _ ← deleteInvoiceRow (InvoiceData.id invoiceData);
            throw ("Failed to create invoice items: " +:+ message)
        | Data _ => mret tt
        end
      else mret tt);;
     now ← nowISO;
     r ← updateClientVisit (Client.id client) (Client.visitCount client + 1) now;
     match r with
     | Failure message =>
         consoleWarn "Failed to update client visit count:" (Some message)
     | Data _ => mret tt
     end;;
     loadInvoices;;
     loadClients;;
     set (Store.set_loading false);;
     auditLog "create" "invoice" (InvoiceData.id invoiceData)
              (InvoiceCreated (InvoiceData.total invoiceData)
                              (InvoiceData.status invoiceData));;
     toast "Invoice created successfully!"
           (Some ("Invoice " +:+ InvoiceData.id invoiceData +:+ " has been created."))
           default_variant)
    (λ e,
       consoleError "Error adding invoice:" (Some e);;
       let errorMessage := orElse (Some e) "Failed to add invoice" in
       set (λ s, Store.set_loading false (Store.set_error (Some errorMessage) s));;
       toast "Error adding invoice" (Some errorMessage) destructive;;
       throw e).

(** [updateData] as [updateInvoice] fills it from the patch. *)
Definition toUpdateData (updates : InvoicePatch.t) : InvoiceUpdate.t :=
  {| InvoiceUpdate.client_id :=
       match InvoicePatch.client updates with
       | Some c => if falsy (Client.id c) then None else Some (Client.id c)
       | None => None
       end;
     InvoiceUpdate.total := InvoicePatch.total updates;
     InvoiceUpdate.payment_method := orUndefined (InvoicePatch.paymentMethod updates);
     InvoiceUpdate.status := InvoicePatch.status updates;
     InvoiceUpdate.pickup_date :=
       (λ v, orUndefined (Some v)) <$> InvoicePatch.pickupDate updates;
     InvoiceUpdate.pickup_time :=
       (λ v, orUndefined (Some v)) <$> InvoicePatch.pickupTime updates;
     InvoiceUpdate.notes :=
       (λ v, orUndefined (Some v)) <$> InvoicePatch.notes updates |}.

Definition updateInvoice (id : string) (updates : InvoicePatch.t) : Async unit :=
  tryCatch
    (set (λ s, Store.set_error None (Store.set_loading true s));;
     r ← updateInvoiceRow id (toUpdateData updates);
     match r with
     | Failure message => throw ("Failed to update invoice: " +:+ message)
     | Data _ => mret tt
     end;;
     match InvoicePatch.items updates with
     | Some items =>
         r ← deleteItems id;
         match r with
         | Failure message => throw ("Failed to update invoice items: " +:+ message)
         | Data _ => mret tt
         end;;
         if Nat.ltb 0 (length items)
         then
           r ← insertItems (itemsToInsert id items);
           match r with
           | Failure message => throw ("Failed to update invoice items: " +:+ message)
           | Data _ => mret tt
           end
         else mret tt
     | None => mret tt
     end;;
     loadInvoices;;
     set (Store.set_loading false);;
     auditLog "update" "invoice" id (InvoiceUpdated updates);;
     toast "Invoice updated successfully!" None default_variant)
    (λ e,
       consoleError "Error updating invoice:" (Some e);;
       let errorMessage := orElse (Some e) "Failed to update invoice" in
       set (λ s, Store.set_loading false (Store.set_error (Some errorMessage) s));;
       toast "Error updating invoice" (Some errorMessage) destructive).

(** The callback of the [filter] in [getPickupNotifications]. *)
Definition isPickupDue (currentDate currentTimeString : string) (invoice : Invoice.t)
    : bool :=
  match Invoice.pickupDate invoice, Invoice.pickupTime invoice with
  | Some pickupDate, Some pickupTime =>
      if falsy pickupDate || falsy pickupTime
         || bool_decide (Invoice.status invoice = completed)
      then false
      else
        let isToday := bool_decide (pickupDate = currentDate) in
        let pickupTime := substring 0 5 pickupTime in
        let isTimeMatch := bool_decide (pickupTime = currentTimeString) in
        isToday && isTimeMatch
  | _, _ => false
  end.

Definition currentDate (now : Date.t) : string :=
  splitHead "T" (Date.toISOString now).

Definition currentTimeString (now : Date.t) : string :=
  padStart 2 "0" (toString (Date.getHours now)) +:+ ":" +:+
  padStart 2 "0" (toString (Date.getMinutes now)).

Definition getPickupNotifications : Async (list Invoice.t) :=
  now ← newDate;
  s ← get;
  mret (List.filter (isPickupDue (currentDate now) (currentTimeString now))
                    (Store.invoices s)).

Definition withStatus (status : Status) (updatedAt : string) (invoice : Invoice.t)
    : Invoice.t :=
  {| Invoice.id := Invoice.id invoice;
     Invoice.client := Invoice.client invoice;
     Invoice.items := Invoice.items invoice;
     Invoice.total := Invoice.total invoice;
     Invoice.paymentMethod := Invoice.paymentMethod invoice;
     Invoice.status := status;
     Invoice.pickupDate := Invoice.pickupDate invoice;
     Invoice.pickupTime := Invoice.pickupTime invoice;
     Invoice.notes := Invoice.notes invoice;
     Invoice.createdByName := Invoice.createdByName invoice;
     Invoice.createdByPhone := Invoice.createdByPhone invoice;
     Invoice.createdAt := Invoice.createdAt invoice;
     Invoice.updatedAt := updatedAt |}.

Definition statusName (status : Status) : string :=
  match status with
  | pending => "pending"
  | completed => "completed"
  | cancelled => "cancelled"
  end.

Definition updateInvoiceStatus (id : string) (status : Status) : Async unit :=
  tryCatch
    (set (λ s, Store.set_error None (Store.set_loading true s));;
     now ← nowISO;
     r ← updateInvoiceStatusRow id status now;
     match r with
     | Failure message => throw ("Failed to update invoice status: " +:+ message)
     | Data _ => mret tt
     end;;
     now' ← nowISO;
     set (λ s,
            Store.set_loading false
              (Store.set_invoices
                 (map (λ invoice,
                         if bool_decide (Invoice.id invoice = id)
                         then withStatus status now' invoice
                         else invoice)
                      (Store.invoices s)) s));;
     auditLog "status_update" "invoice" id (StatusChanged status);;
     toast "Status updated successfully!"
           (Some ("Invoice " +:+ id +:+ " marked as " +:+ statusName status))
           default_variant)
    (λ e,
       consoleError "Error updating invoice status:" (Some e);;
       let errorMessage := orElse (Some e) "Failed to update status" in
       set (λ s, Store.set_loading false (Store.set_error (Some errorMessage) s));;
       toast "Error updating status" (Some errorMessage) destructive).

(** ** The invoice form *)

(** [form.watch('items')] reduced to the total. *)
Definition calculateTotal : Async Z :=
  items ← watchItems;
  mret (fold_left (λ sum item, sum + FormItem.quantity item * FormItem.unitPrice item)
                  items 0).

(** The [for] loop of [onSubmit] over the items: the title of the toast
    of the first item that fails a check, numbering the items from 1. *)
Fixpoint validateItems (i : nat) (items : list FormItem.t) : option string :=
  match items with
  | [] => None
  | item :: rest =>
      if falsy (trim (FormItem.description item))
      then Some ("Item " +:+ toString (S i) +:+ " description is required")
      else if Z.leb (FormItem.quantity item) 0
      then Some ("Item " +:+ toString (S i) +:+ " quantity must be greater than 0")
      else if Z.ltb (FormItem.unitPrice item) 0
      then Some ("Item " +:+ toString (S i) +:+ " unit price cannot be negative")
      else validateItems (S i) rest
  end.

(** [data.items.map(item => ({ id: crypto.randomUUID(), ...item,
    totalPrice: item.quantity * item.unitPrice }))] *)
Definition toInvoiceItems (n : nat) (items : list FormItem.t) : list InvoiceItem.t :=
  imap (λ i item,
          {| InvoiceItem.id := Env.uuid env n i;
             InvoiceItem.description := FormItem.description item;
             InvoiceItem.quantity := FormItem.quantity item;
             InvoiceItem.unitPrice := FormItem.unitPrice item;
             InvoiceItem.totalPrice := FormItem.quantity item * FormItem.unitPrice item |})
       items.

(** The invoice data seen as the [Partial<Invoice>] that [updateInvoice]
    takes. *)
Definition asPatch (invoiceData : InvoiceData.t) : InvoicePatch.t :=
  {| InvoicePatch.client := InvoiceData.client invoiceData;
     InvoicePatch.items := Some (InvoiceData.items invoiceData);
     InvoicePatch.total := Some (InvoiceData.total invoiceData);
     InvoicePatch.paymentMethod := Some (InvoiceData.paymentMethod invoiceData);
     InvoicePatch.status := Some (InvoiceData.status invoiceData);
     InvoicePatch.pickupDate := InvoiceData.pickupDate invoiceData;
     InvoicePatch.pickupTime := InvoiceData.pickupTime invoiceData;
     InvoicePatch.notes := InvoiceData.notes invoiceData |}.

(** The submit handler of the form; [editingId] is the component's
    property. The [onSave] callback of the parent is not part of the
    model. *)
Definition onSubmit (editingId : option string) (data : InvoiceFormData.t) : Async unit :=
  tryCatch
    (if falsy (trim (InvoiceFormData.clientName data))
     then toast "Client name is required" None destructive
     else if falsy (trim (InvoiceFormData.clientPhone data))
     then toast "Client phone is required" None destructive
     else if falsy (InvoiceFormData.paymentMethod data)
     then toast "Payment method is required" None destructive
     else if Nat.eqb (length (InvoiceFormData.items data)) 0
     then toast "At least one item is required" None destructive
     else
       match validateItems 0 (InvoiceFormData.items data) with
       | Some title => toast title None destructive
       | None =>
           s ← get;
           found ←
             match List.find
                     (λ c, bool_decide (Client.phone c = InvoiceFormData.clientPhone data))
                     (Store.clients s) with
             | Some client => mret (Some client)
             | None =>
                 now ← nowISO;
                 newClient ← addClient
                   {| ClientData.name := InvoiceFormData.clientName data;
                      ClientData.phone := InvoiceFormData.clientPhone data;
                      ClientData.address :=
                        Some (orElse (InvoiceFormData.clientAddress data) "");
                      ClientData.visitCount := 0;
                      ClientData.rewardClaimed := false;
                      ClientData.lastVisit := now |};
                 match newClient with
                 | None => toast "Failed to create client" None destructive;; mret None
                 | Some client => mret (Some client)
                 end
             end;
           match found with
           | None => mret tt
           | Some client =>
               total ← calculateTotal;
               n ← callCount;
               let invoiceData :=
                 {| InvoiceData.id := orElse editingId (Env.invoiceId env n);
                    InvoiceData.client := Some client;
                    InvoiceData.items := toInvoiceItems n (InvoiceFormData.items data);
                    InvoiceData.total := total;
                    InvoiceData.paymentMethod := InvoiceFormData.paymentMethod data;
                    InvoiceData.status := InvoiceFormData.status data;
                    InvoiceData.pickupDate := orUndefined (InvoiceFormData.pickupDate data);
                    InvoiceData.pickupTime := orUndefined (InvoiceFormData.pickupTime data);
                    InvoiceData.notes := orUndefined (InvoiceFormData.notes data) |} in
               match orUndefined editingId with
               | Some id =>
                   updateInvoice id (asPatch invoiceData);;
                   toast "Invoice updated successfully!" None default_variant
               | None =>
                   addInvoice invoiceData;;
                   toast "Invoice created successfully!" None default_variant
               end
           end
       end)
    (λ e,
       consoleError "Error in form submission:" (Some e);;
       toast "Error saving invoice" (Some (orElse (Some e) "Please try again."))
             destructive).

(** [\d] *)
Definition isDigit (c : ascii) : bool :=
  let n := nat_of_ascii c in (Nat.leb 48 n && Nat.leb n 57)%bool.

(** [/^\+250\d{9}$/] *)
Definition phoneSchema (s : string) : bool :=
  match s with
  | String "+" (String "2" (String "5" (String "0" r))) =>
      (Nat.eqb (String.length r) 9 && forallb isDigit (list_ascii_of_string r))%bool
  | _ => false
  end.

(** [invoiceSchema], the zod schema the form is resolved with. *)
Definition invoiceSchema (v : InvoiceFormData.t) : bool :=
  (Nat.leb 1 (String.length (InvoiceFormData.clientName v))
   && (Nat.leb 1 (String.length (InvoiceFormData.clientPhone v))
       && phoneSchema (InvoiceFormData.clientPhone v))
   && (Nat.leb 1 (length (InvoiceFormData.items v))
       && forallb (λ item,
                     Nat.leb 1 (String.length (FormItem.description item))
                     && Z.leb 1 (FormItem.quantity item)
                     && Z.leb 0 (FormItem.unitPrice item))
                  (InvoiceFormData.items v))
   && Nat.leb 1 (String.length (InvoiceFormData.paymentMethod v)))%bool.

(** [form.handleSubmit(onSubmit)]: the current values of the form are
    checked against the schema and, when they pass, handed to the submit
    handler. *)
Definition handleSubmit (editingId : option string) : Async unit :=
  λ w,
    let values := World.form w in
    if invoiceSchema values then onSubmit editingId values w
    else (Returned tt, w).

End Operations.

(** * The notions the properties are stated with *)




(** The list that [getPickupNotifications] returns in a world. *)
Definition notified (env : Env.t) (w : World.t) : list Invoice.t :=
  match fst (getPickupNotifications env w) with
  | Returned due => due
  | Thrown _ => []
  end.

(** The invoice data carries no client, or a client with an empty id. *)
Definition missingClientId (invoiceData : InvoiceData.t) : Prop :=
  match InvoiceData.client invoiceData with
  | None => True
  | Some client => Client.id client = ""
  end.

(** The invoice data passes the three checks of [addInvoice] and names
    [client] as its client. *)
Definition wellFormed (invoiceData : InvoiceData.t) (client : Client.t) : Prop :=
  InvoiceData.id invoiceData ≠ ""
  ∧ InvoiceData.client invoiceData = Some client
  ∧ Client.id client ≠ ""
  ∧ InvoiceData.items invoiceData ≠ [].

(** Two invoices that agree on every field but [status] and [updatedAt]. *)
Definition sameButStatus (a b : Invoice.t) : Prop :=
  Invoice.id a = Invoice.id b
  ∧ Invoice.client a = Invoice.client b
  ∧ Invoice.items a = Invoice.items b
  ∧ Invoice.total a = Invoice.total b
  ∧ Invoice.paymentMethod a = Invoice.paymentMethod b
  ∧ Invoice.pickupDate a = Invoice.pickupDate b
  ∧ Invoice.pickupTime a = Invoice.pickupTime b
  ∧ Invoice.notes a = Invoice.notes b
  ∧ Invoice.createdByName a = Invoice.createdByName b
  ∧ Invoice.createdByPhone a = Invoice.createdByPhone b
  ∧ Invoice.createdAt a = Invoice.createdAt b.

(** The audit row of a status change made by the actor of store [s]. *)
Definition statusAudit (s : Store.t) (id : string) (status : Status) : AuditRow.t :=
  {| AuditRow.action := "status_update";
     AuditRow.entity_type := "invoice";
     AuditRow.entity_id := id;
     AuditRow.actor_phone := Store.currentUserPhone s;
     AuditRow.actor_name := Store.currentUserName s;
     AuditRow.changes := StatusChanged status |}.




(** ** Worlds and environments to run the operations on *)

Module Sample.
Definition noon : Date.t := Date.mk 2024 0 5 10 30 7 45 12 30.
Definition later : Date.t := Date.mk 2024 0 5 10 31 9 120 12 31.

(** No backend call fails and the clock stands still. *)
Definition calm : Env.t :=
  Env.mk (λ _, None) (λ _, noon)
         (λ n i, "row-" +:+ toString n +:+ "-" +:+ toString i)
         (λ n, "INV-" +:+ toString n).

Definition jeanRow : ClientRow.t :=
  ClientRow.mk "c1" "Jean" "+250788000000" None 0 false
               (Some "2024-01-01T08:00:00.000Z")
               "2024-01-01T08:00:00.000Z" "2024-01-01T08:00:00.000Z".

Definition jean : Client.t := toClient "" jeanRow.

Definition header (id client_id : string) : InvoiceRow.t :=
  InvoiceRow.mk id client_id 2000 "CASH" pending (Some "2024-01-05") (Some "12:30:00")
                None None None "2024-01-02T08:00:00.000Z" "2024-01-02T08:00:00.000Z".

Definition shirtRow : ItemRow.t :=
  ItemRow.mk "i1" "INV-1" "Shirt wash" 2 1000 2000 "2024-01-02T08:00:00.000Z".

Definition emptyStore : Store.t := Store.mk [] [] None None false None false false.

Definition emptyForm : InvoiceFormData.t :=
  InvoiceFormData.mk "" "+250" None [FormItem.mk "" 1 0] "" None None None pending.

Definition world (b : Backend.t) (s : Store.t) : World.t :=
  World.mk b s ∅ emptyForm [] [] [].

(** One client, one invoice of that client with one item, and one
    invoice whose client row is missing. *)
Definition shop : Backend.t :=
  Backend.mk [UserRow.mk (Some "Aline") "+250788111111"]
             [jeanRow] [header "INV-1" "c1"; header "INV-2" "gone"] [shirtRow] [].

(** The clock moves after the fourth backend call. *)
Definition ticking : Env.t :=
  Env.mk (λ _, None) (λ n, if Nat.ltb n 4 then noon else later)
         (Env.uuid calm) (Env.invoiceId calm).

(** A client row without a last visit, and an invoice of that client. *)
Definition newcomerRow : ClientRow.t :=
  ClientRow.mk "c2" "Marie" "+250788222222" None 0 false None
               "2024-01-01T08:00:00.000Z" "2024-01-01T08:00:00.000Z".

Definition quiet : Backend.t :=
  Backend.mk [] [newcomerRow] [header "INV-3" "c2"] [] [].

(** An account without a name, and a browser that remembers the
    previous user. *)
Definition nameless : Backend.t :=
  Backend.mk [UserRow.mk None "+250788333333"] [] [] [] [].


(** The form filled in for Jean: two shirts to wash and three items to
    iron. *)
Definition shirtForm : InvoiceFormData.t :=
  InvoiceFormData.mk "Jean" "+250788000000" None
                     [FormItem.mk "Shirt wash" 2 1000; FormItem.mk "Ironing" 3 500]
                     "CASH" None None None pending.


(** The scenario of the specification: no client yet, and the form
    filled in for Jean with one item, two shirts at 1000. *)
Definition firstDay : World.t :=
  World.mk (Backend.mk [] [] [] [] []) emptyStore ∅
           (InvoiceFormData.mk "Jean" "+250788000000" None
                               [FormItem.mk "Shirt wash" 2 1000]
                               "CASH" None None None pending)
           [] [] [].

(** Half past midnight on the 6th of January in a zone two hours ahead
    of UTC: the ISO time stamp is still on the 5th. *)
Definition afterMidnight : Date.t := Date.mk 2024 0 5 22 30 0 0 0 30.

Definition nightShift : Env.t :=
  Env.mk (λ _, None) (λ _, afterMidnight) (Env.uuid calm) (Env.invoiceId calm).

Definition pickupAt (id date time : string) : Invoice.t :=
  Invoice.mk id jean [] 0 "CASH" pending (Some date) (Some time) None None None "" "".

Definition shirt : InvoiceItem.t := InvoiceItem.mk "x1" "Shirt wash" 2 1000 2000.

Definition order : InvoiceData.t :=
  InvoiceData.mk "INV-9" (Some jean) [shirt] 2000 "CASH" pending None None None.
End Sample.

(** * More of the store and of its callers *)

(** ** The remaining store operations *)

Definition localStorage_removeItem (key : string) : Async unit :=
  λ w, (Returned tt, World.set_localStorage (delete key) w).

Definition clearError : Async unit := set (Store.set_error None).

(** [reset] assigns every field of the store but the realtime channel. *)
Definition reset : Async unit :=
  set (λ _, Store.mk [] [] None None false None false false).

Definition signOut : Async unit :=
  localStorage_removeItem "ims_user_phone";;
  localStorage_removeItem "ims_user_name";;
  set (Store.set_user None None).

Section MoreOperations.
Variable env : Env.t.

Definition deleteInvoice (id : string) : Async unit :=
  tryCatch
    (set (λ s, Store.set_error None (Store.set_loading true s));;
     r ← deleteInvoiceRow env id;
     match r with
     | Failure message => throw ("Failed to delete invoice: " +:+ message)
     | Data _ => mret tt
     end;;
     set (λ s,
            Store.set_loading false
              (Store.set_invoices
                 (List.filter (λ invoice, negb (bool_decide (Invoice.id invoice = id)))
                              (Store.invoices s)) s));;
     auditLog env "delete" "invoice" id NoChanges;;
     toast "Invoice deleted successfully!" None default_variant)
    (λ e,
       consoleError "Error deleting invoice:" (Some e);;
       let errorMessage := orElse (Some e) "Failed to delete invoice" in
       set (λ s, Store.set_loading false (Store.set_error (Some errorMessage) s));;
       toast "Error deleting invoice" (Some errorMessage) destructive).

(** ** The invoice list *)

(** [handleDelete] of the invoice list. Its [setDeleteInvoiceId(null)],
    which closes the confirmation dialog, is state of the component and
    not part of the model. *)
Definition handleDelete (invoiceId : string) : Async unit :=
  tryCatch
    (deleteInvoice invoiceId;;
     toast "Invoice deleted successfully!" None default_variant)
    (λ _, toast "Error deleting invoice" (Some "Please try again.") destructive).

End MoreOperations.


(** ** The checks of the form *)


(** The form data pass the checks at the head of [onSubmit], so that the
    handler goes on to find or create the client. *)
Definition passesChecks (data : InvoiceFormData.t) : bool :=
  (negb (falsy (trim (InvoiceFormData.clientName data)))
   && negb (falsy (trim (InvoiceFormData.clientPhone data)))
   && negb (falsy (InvoiceFormData.paymentMethod data))
   && negb (Nat.eqb (length (InvoiceFormData.items data)) 0)
   && bool_decide (validateItems 0 (InvoiceFormData.items data) = None))%bool.

(** ** The reports *)

(** The [stats] of the advanced reports, from the invoices of the period
    chosen. The averages, which are fractions, and the breakdowns by
    payment method, by day and by client, which are objects keyed by
    strings read from the data, are left out. *)
Module AdvancedReports.

End AdvancedReports.

(** [getClientStats] of the client management page, from the invoices of
    the snapshot; [lastInvoice], a date, is left out. *)
Module ClientManagement.

End ClientManagement.

(** The [totals] of the admin reports page, from the header rows it has
    fetched, and its fetch for the range "all", which is the ordered
    select of [loadInvoices]; a fetch that fails leaves no rows. *)
Module AdminReports.



End AdminReports.

(** A day at the counter with Jean already among the clients of the
    snapshot, and the form filled in for him. *)
Module Scene.
Definition regular : World.t :=
  World.mk Sample.shop (Store.mk [] [Sample.jean] None None false None false false)
           ∅ Sample.shirtForm [] [] [].

(** Every statement sent to the backend fails. *)
Definition offline : Env.t :=
  Env.mk (λ _, Some "offline") (Env.clock Sample.calm) (Env.uuid Sample.calm)
         (Env.invoiceId Sample.calm).
End Scene.
(** * Properties *)

(** ** Strings and dates *)


Lemma falsy_false s : falsy s = false ↔ s ≠ "".
Proof. unfold falsy. apply bool_decide_eq_false. Qed.

Lemma orZero_id n : orZero n = n.
Proof. unfold orZero. destruct (Z.eqb_spec n 0); congruence. Qed.

Lemma append_nonempty a c b : a +:+ String c b ≠ "".
Proof. by destruct a. Qed.









Lemma toISOString_nonempty now : Date.toISOString now ≠ "".
Proof. unfold Date.toISOString. apply append_nonempty. Qed.

(** The console after a list of lines has been printed. *)
Lemma logs_fold lines w :
  fold_left (λ w' x, World.add_log x w') lines w =
  World.mk (World.backend w) (World.store w) (World.localStorage w) (World.form w)
           (World.calls w) (World.toasts w) (rev lines ++ World.console w).
Proof.
  revert w. induction lines as [|x l IH]; intros w; simpl.
  - by destruct w.
  - rewrite IH. simpl. by rewrite <- app_assoc.
Qed.

(** ** Tactics to run the operations *)

(** Unfold an operation down to the functions on worlds: first the form,
    then the store operations, then the loads they call, then the backend
    statements, then the monad. *)
Ltac unfold_ops :=
  unfold handleSubmit, onSubmit, calculateTotal in *;
  unfold setCurrentUser, addClient, addInvoice, updateInvoice, updateInvoiceStatus,
    getPickupNotifications in *;
  unfold loadInvoices, loadClients, auditLog in *;
  unfold selectUser, selectInvoices, selectClients, selectItems, insertClient,
    insertInvoice, insertItems, updateClientVisit, updateInvoiceRow,
    updateInvoiceStatusRow, deleteInvoiceRow, deleteItems in *;
  unfold nowISO, newDate, callCount, request, tryCatch, throw, consoleError, consoleWarn,
    consoleAll, toast, set, get, localStorage_setItem, watchItems,
    mbind, mret, Async_bind, Async_ret in *.

(** Run [addInvoice] past its three checks, for invoice data that pass
    them. *)
Ltac enter_addInvoice Hid Hc Hcid :=
  apply falsy_false in Hid, Hcid;
  unfold_ops; simpl; rewrite ?Hid, ?Hc; simpl; rewrite ?Hcid; simpl;
  let item := fresh "item" in
  let items := fresh "items" in
  let Ei := fresh "Ei" in
  destruct (InvoiceData.items _) as [|item items] eqn:Ei; [done|]; simpl.

(** Run on after the outcome of a backend call is known. *)
Ltac settle := simpl; rewrite ?rev_unit, ?logs_fold; simpl.

(** Split the calls of the world reached, a concrete list put before the
    calls of the world started from, into the new calls and the old. *)
Ltac split_calls :=
  first [ exists []; split; [reflexivity|]
        | eexists [_]; split; [reflexivity|]
        | eexists [_; _]; split; [reflexivity|]
        | eexists [_; _; _]; split; [reflexivity|]
        | eexists [_; _; _; _]; split; [reflexivity|]
        | eexists [_; _; _; _; _]; split; [reflexivity|]
        | eexists [_; _; _; _; _; _]; split; [reflexivity|]
        | eexists [_; _; _; _; _; _; _]; split; [reflexivity|]
        | eexists [_; _; _; _; _; _; _; _]; split; [reflexivity|]
        | eexists [_; _; _; _; _; _; _; _; _]; split; [reflexivity|] ].

(** No call of a concrete list is of the kind asked about. *)
Ltac no_such_call :=
  let H := fresh in
  intros ? H;
  repeat (apply elem_of_cons in H as [H|H]; [discriminate|]);
  by apply elem_of_nil in H.

(** An element is in a concrete list, or in a concrete list put before
    another list. *)
Ltac find_elem :=
  first [ apply elem_of_cons; left; reflexivity
        | apply elem_of_cons; right; find_elem
        | apply elem_of_app; right; find_elem ].

(** Every call of a concrete list that is of the kind asked about has the
    property asked for. *)
Ltac each_call :=
  let H := fresh in
  intros ? H;
  repeat (apply elem_of_cons in H as [H|H];
          [first [discriminate | by injection H as ?; subst]|]);
  by apply elem_of_nil in H.

(** ** The client lookup and the join *)

Lemma clientsMap_snoc l c :
  clientsMap (l ++ [c]) = <[ClientRow.id c := c]> (clientsMap l).
Proof. unfold clientsMap. by rewrite foldl_app. Qed.

Lemma clientsMap_Some l k c :
  clientsMap l !! k = Some c → c ∈ l ∧ ClientRow.id c = k.
Proof.
  induction l as [|x l IH] using rev_ind; [done|].
  rewrite clientsMap_snoc, lookup_insert. case_decide as E.
  - intros [= ->]. split; [|done]. apply elem_of_app. right. apply list_elem_of_singleton; done.
  - intros H. destruct (IH H). split; [|done]. apply elem_of_app. by left.
Qed.







(** ** Running the operations *)

(** What a successful [loadInvoices] assigns to the snapshot. *)
Lemma loadInvoices_returned env w :
  fst (loadInvoices env w) = Returned tt →
  Store.invoices (World.store (snd (loadInvoices env w))) =
    buildInvoices (Date.toISOString (Env.clock env (3 + length (World.calls w))))
      (rev (Backend.invoices (World.backend w)))
      (Backend.clients (World.backend w))
      (Backend.invoice_items (World.backend w)).
Proof.
  unfold_ops.
  destruct (Env.fault env (length (World.calls w))); simpl; [done|].
  destruct (rev (Backend.invoices (World.backend w))) as [|h hs]; simpl; [done|].
  destruct (Env.fault env (S (length (World.calls w)))); simpl; [done|].
  destruct (Env.fault env (S (S (length (World.calls w))))); simpl; done.
Qed.



(** ** Reloading *)

Lemma loadInvoices_backend env w :
  World.backend (snd (loadInvoices env w)) = World.backend w.
Proof.
  unfold_ops.
  destruct (Env.fault env (length (World.calls w))); simpl; [done|].
  destruct (rev (Backend.invoices (World.backend w))) as [|h hs]; simpl; [done|].
  destruct (Env.fault env (S (length (World.calls w)))); simpl; [done|].
  destruct (Env.fault env (S (S (length (World.calls w))))); simpl; [done|].
  by rewrite logs_fold.
Qed.

Lemma toClient_now now now' client :
  orUndefined (ClientRow.last_visit client) ≠ None →
  toClient now client = toClient now' client.
Proof.
  unfold toClient, orUndefined, orElse. intros H. f_equal.
  destruct (ClientRow.last_visit client) as [s|]; [|done]. by destruct (falsy s).
Qed.

Lemma filterBoolean_ext {A B} (f g : A → option B) (l : list A) :
  (∀ x, x ∈ l → f x = g x) → filterBoolean (map f l) = filterBoolean (map g l).
Proof.
  induction l as [|x l IH]; intros H; simpl; [done|].
  rewrite (H x) by (by left). rewrite IH; [done|].
  intros y Hy. apply H. by right.
Qed.

(** A failed [loadInvoices] leaves the store as it was. *)
Lemma loadInvoices_thrown env w e :
  fst (loadInvoices env w) = Thrown e →
  World.store (snd (loadInvoices env w)) = World.store w.
Proof.
  unfold_ops.
  destruct (Env.fault env (length (World.calls w))); simpl; [done|].
  destruct (rev (Backend.invoices (World.backend w))) as [|h hs]; simpl; [done|].
  destruct (Env.fault env (S (length (World.calls w)))); simpl; [done|].
  destruct (Env.fault env (S (S (length (World.calls w))))); simpl; done.
Qed.

(** C5, as the code has it. After a successful [loadInvoices], a second
    run, with nothing written in between, leaves an equal invoice
    snapshot, provided every client row that an invoice header refers to
    has a last visit; for a row that has none the embedded [lastVisit] is
    the time of the load. (A second run that fails keeps the snapshot of
    the first.) *)
Theorem loadInvoices_twice (env : Env.t) (w : World.t) :
  let w1 := snd (loadInvoices env w) in
  let w2 := snd (loadInvoices env w1) in
  fst (loadInvoices env w) = Returned tt →
  (∀ client invoice,
     client ∈ Backend.clients (World.backend w) →
     invoice ∈ Backend.invoices (World.backend w) →
     ClientRow.id client = InvoiceRow.client_id invoice →
     orUndefined (ClientRow.last_visit client) ≠ None) →
  World.backend w2 = World.backend w
  ∧ Store.invoices (World.store w2) = Store.invoices (World.store w1).
Proof.
  intros w1 w2. subst w1 w2. intros H1 Hv.
  rewrite !loadInvoices_backend. split; [done|].
  destruct (fst (loadInvoices env (snd (loadInvoices env w)))) as [[]|e] eqn:H2;
    [|by rewrite (loadInvoices_thrown _ _ _ H2)].
  rewrite (loadInvoices_returned env _ H2).
  rewrite (loadInvoices_returned env w H1), loadInvoices_backend.
  unfold buildInvoices. apply filterBoolean_ext. intros invoice Hi.
  unfold buildInvoice.
  destruct (clientsMap _ !! _) as [c|] eqn:L; [|done].
  apply clientsMap_Some in L as [Hc Hid].
  f_equal. f_equal. apply toClient_now. apply (Hv c invoice); [done | | done].
  apply list_elem_of_In. apply in_rev. by apply list_elem_of_In.
Qed.

Lemma loadInvoices_twice_witness :
  let w := Sample.world Sample.shop Sample.emptyStore in
  Store.invoices (World.store (snd (loadInvoices Sample.ticking
                                      (snd (loadInvoices Sample.ticking w)))))
  = Store.invoices (World.store (snd (loadInvoices Sample.ticking w))).
Proof.
  intros w.
  refine (proj2 (loadInvoices_twice Sample.ticking w eq_refl _)).
  intros client invoice Hc Hi _.
  apply list_elem_of_singleton in Hc. subst client. done.
Defined.

(** C5, as stated, fails: the backend is not written to between the two
    loads, yet the snapshots differ in the [lastVisit] of a client whose
    row has no last visit, because the clock has moved. *)
Lemma loadInvoices_twice_counterexample :
  let w := Sample.world Sample.quiet Sample.emptyStore in
  let w1 := snd (loadInvoices Sample.ticking w) in
  let w2 := snd (loadInvoices Sample.ticking w1) in
  fst (loadInvoices Sample.ticking w) = Returned tt
  ∧ fst (loadInvoices Sample.ticking w1) = Returned tt
  ∧ World.backend w2 = World.backend w
  ∧ Store.invoices (World.store w2) ≠ Store.invoices (World.store w1).
Proof.
  repeat split; try reflexivity.
  vm_compute. discriminate.
Qed.

(** ** Pickup notifications *)



Lemma getPickupNotifications_run env w :
  getPickupNotifications env w =
  (Returned (List.filter
               (isPickupDue (currentDate (Env.clock env (length (World.calls w))))
                            (currentTimeString (Env.clock env (length (World.calls w)))))
               (Store.invoices (World.store w))), w).
Proof. reflexivity. Qed.



(** The date is the UTC date of the time stamp and the time is the local
    time: half an hour after local midnight in a zone ahead of UTC, the
    invoice due at 00:30 on the UTC date is returned, and the one due at
    00:30 on the next date is not. *)
Example getPickupNotifications_utc_date :
  let w := Sample.world Sample.shop
             (Store.set_invoices [Sample.pickupAt "A" "2024-01-05" "00:30:00";
                                  Sample.pickupAt "B" "2024-01-06" "00:30:00"]
                                 Sample.emptyStore) in
  map Invoice.id (notified Sample.nightShift w) = ["A"].
Proof. reflexivity. Qed.

(** ** Creating an invoice *)

(** C6. When the invoice id is empty, the client id is missing or the
    item list is empty, [addInvoice] throws a validation error, sends
    nothing to the backend (the list of calls and the tables are as
    before), leaves local storage alone and changes the store in its
    [loading] and [error] flags only. *)
Theorem addInvoice_validation (env : Env.t) (w : World.t) (invoiceData : InvoiceData.t) :
  InvoiceData.id invoiceData = "" ∨ missingClientId invoiceData
  ∨ InvoiceData.items invoiceData = [] →
  let w' := snd (addInvoice env invoiceData w) in
  ∃ message,
    fst (addInvoice env invoiceData w) = Thrown message
    ∧ message ∈ ["Invoice ID is required"; "Client ID is required";
                 "Invoice items are required"]
    ∧ World.calls w' = World.calls w
    ∧ World.backend w' = World.backend w
    ∧ World.localStorage w' = World.localStorage w
    ∧ World.store w'
      = Store.set_loading false (Store.set_error (Some message) (World.store w)).
Proof.
  intros H. unfold missingClientId in H. unfold_ops. simpl.
  destruct (falsy (InvoiceData.id invoiceData)) eqn:Fid; simpl.
  { exists "Invoice ID is required". repeat split; try done. by left. }
  apply falsy_false in Fid.
  destruct (InvoiceData.client invoiceData) as [client|]; simpl.
  2: { exists "Client ID is required". repeat split; try done. right; by left. }
  destruct (falsy (Client.id client)) eqn:Fc; simpl.
  { exists "Client ID is required". repeat split; try done. right; by left. }
  apply falsy_false in Fc.
  destruct (InvoiceData.items invoiceData) as [|item items]; simpl.
  { exists "Invoice items are required". repeat split; try done. right; right; by left. }
  destruct H as [? | [? | ?]]; done.
Qed.

Lemma addInvoice_validation_witness :
  let invoiceData :=
    InvoiceData.mk "INV-9" (Some Sample.jean) [] 0 "CASH" pending None None None in
  let w := Sample.world Sample.shop Sample.emptyStore in
  ∃ message,
    fst (addInvoice Sample.calm invoiceData w) = Thrown message
    ∧ message ∈ ["Invoice ID is required"; "Client ID is required";
                 "Invoice items are required"]
    ∧ World.calls (snd (addInvoice Sample.calm invoiceData w)) = World.calls w
    ∧ World.backend (snd (addInvoice Sample.calm invoiceData w)) = World.backend w
    ∧ World.localStorage (snd (addInvoice Sample.calm invoiceData w)) = World.localStorage w
    ∧ World.store (snd (addInvoice Sample.calm invoiceData w))
      = Store.set_loading false (Store.set_error (Some message) (World.store w)).
Proof.
  intros invoiceData w.
  apply (addInvoice_validation Sample.calm w invoiceData).
  right. right. reflexivity.
Defined.

(** C2, as the code has it. When the header insert succeeds and the item
    insert fails, [addInvoice] sends a delete of the header row it has
    just inserted and nothing after it (no counter update, no reload, no
    audit row), throws the item-insert error and stores it as the error
    flag, and leaves the snapshots as they were. The outcome of the delete
    is not looked at: when the delete succeeds no header row with the
    invoice id is left in the table, when it fails the row stays. *)
Theorem addInvoice_items_failure (env : Env.t) (w : World.t)
    (invoiceData : InvoiceData.t) (client : Client.t) (message : string) :
  wellFormed invoiceData client →
  Env.fault env (length (World.calls w)) = None →
  Env.fault env (S (length (World.calls w))) = Some message →
  let w' := snd (addInvoice env invoiceData w) in
  let id := InvoiceData.id invoiceData in
  let surfaced := "Failed to create invoice items: " +:+ message in
  fst (addInvoice env invoiceData w) = Thrown surfaced
  ∧ Store.error (World.store w') = Some surfaced
  ∧ (∃ header,
       InvoiceInsert.id header = id
       ∧ World.calls w'
         = DeleteInvoice id
             :: InsertItems (itemsToInsert id (InvoiceData.items invoiceData))
             :: InsertInvoice header :: World.calls w)
  ∧ Store.invoices (World.store w') = Store.invoices (World.store w)
  ∧ Store.clients (World.store w') = Store.clients (World.store w)
  ∧ (Env.fault env (S (S (length (World.calls w)))) = None →
     ∀ row, row ∈ Backend.invoices (World.backend w') → InvoiceRow.id row ≠ id)
  ∧ (is_Some (Env.fault env (S (S (length (World.calls w))))) →
     ∃ row, row ∈ Backend.invoices (World.backend w') ∧ InvoiceRow.id row = id).
Proof.
  intros (Hid & Hc & Hcid & Hitems) F0 F1.
  apply falsy_false in Hid, Hcid.
  unfold_ops. simpl. rewrite Hid, Hc. simpl. rewrite Hcid. simpl.
  destruct (InvoiceData.items invoiceData) as [|item items] eqn:Ei; [done|]. simpl.
  rewrite F0. simpl. rewrite F1. simpl.
  destruct (Env.fault env (S (S (length (World.calls w))))) as [m|] eqn:F2; simpl.
  - split_and!; try done.
    + eexists. split; [|reflexivity]. done.
    + intros _. eexists. split.
      * apply elem_of_app. right. by apply list_elem_of_singleton.
      * reflexivity.
  - split_and!; try done.
    + eexists. split; [|reflexivity]. done.
    + intros _ row [_ Hrow]%list_elem_of_In%filter_In.
      apply negb_true_iff, bool_decide_eq_false in Hrow. done.
Qed.

Lemma addInvoice_items_failure_witness :
  let env := Env.mk (λ n, if Nat.eqb n 1 then Some "timeout" else None)
                    (Env.clock Sample.calm) (Env.uuid Sample.calm)
                    (Env.invoiceId Sample.calm) in
  let w := Sample.world Sample.shop Sample.emptyStore in
  fst (addInvoice env Sample.order w)
  = Thrown "Failed to create invoice items: timeout"
  ∧ ∀ row, row ∈ Backend.invoices (World.backend (snd (addInvoice env Sample.order w))) →
           InvoiceRow.id row ≠ "INV-9".
Proof.
  intros env w.
  pose proof (addInvoice_items_failure env w Sample.order Sample.jean "timeout") as H.
  destruct H as (H1 & _ & _ & _ & _ & H2 & _).
  - unfold wellFormed. split_and!; done.
  - reflexivity.
  - reflexivity.
  - split; [exact H1 | exact (H2 eq_refl)].
Defined.

(** C2, as stated, fails: the header insert succeeds, the item insert
    fails and so does the compensating delete; the delete has been sent,
    the item-insert error is thrown, and the header row is still in the
    table. *)
Lemma addInvoice_items_failure_counterexample :
  let env := Env.mk (λ n, if Nat.eqb n 0 then None else Some "offline")
                    (Env.clock Sample.calm) (Env.uuid Sample.calm)
                    (Env.invoiceId Sample.calm) in
  let w := Sample.world Sample.shop Sample.emptyStore in
  let w' := snd (addInvoice env Sample.order w) in
  Env.fault env 0 = None
  ∧ Env.fault env 1 = Some "offline"
  ∧ head (World.calls w') = Some (DeleteInvoice "INV-9")
  ∧ fst (addInvoice env Sample.order w)
    = Thrown "Failed to create invoice items: offline"
  ∧ ¬ (∀ row, row ∈ Backend.invoices (World.backend w') → InvoiceRow.id row ≠ "INV-9").
Proof.
  split_and!; try reflexivity.
  intros H.
  apply (H (InvoiceRow.mk "INV-9" "c1" 2000 "CASH" pending None None None None None
              "2024-01-05T10:30:07.045Z" "2024-01-05T10:30:07.045Z")); [|reflexivity].
  apply list_elem_of_In. vm_compute. auto.
Qed.

(** C7, as the code has it. When the header and item inserts succeed and
    the counter update fails, [addInvoice] logs a warning and goes on: it
    undoes nothing (no delete is sent, the header row is in the table
    afterwards) and starts the reload. The operation then succeeds when
    the four reads of the reload succeed, whatever becomes of the audit
    row; a read that fails is surfaced as the operation's error. *)
Theorem addInvoice_counter_failure (env : Env.t) (w : World.t)
    (invoiceData : InvoiceData.t) (client : Client.t) (message : string) :
  wellFormed invoiceData client →
  Env.fault env (length (World.calls w)) = None →
  Env.fault env (S (length (World.calls w))) = None →
  Env.fault env (S (S (length (World.calls w)))) = Some message →
  let n := length (World.calls w) in
  let w' := snd (addInvoice env invoiceData w) in
  let id := InvoiceData.id invoiceData in
  let made header :=
    SelectInvoices
      :: UpdateClientVisit (Client.id client) (Client.visitCount client + 1)
           (Date.toISOString (Env.clock env (2 + n)%nat))
      :: InsertItems (itemsToInsert id (InvoiceData.items invoiceData))
      :: InsertInvoice header :: World.calls w in
  (∃ header later,
     World.calls w' = (later ++ made header)%list
     ∧ InvoiceInsert.id header = id
     ∧ ∀ id', DeleteInvoice id' ∉ later)
  ∧ Log.mk warn "Failed to update client visit count:" (Some message) ∈ World.console w'
  ∧ (∃ row, row ∈ Backend.invoices (World.backend w') ∧ InvoiceRow.id row = id)
  ∧ (Env.fault env (3 + n)%nat = None → Env.fault env (4 + n)%nat = None →
     Env.fault env (5 + n)%nat = None → Env.fault env (6 + n)%nat = None →
     fst (addInvoice env invoiceData w) = Returned tt
     ∧ Store.error (World.store w') = None
     ∧ Store.loading (World.store w') = false
     ∧ ∃ header audit,
         World.calls w'
         = InsertAudit audit :: SelectClients true :: SelectItems
             :: SelectClients false :: made header)
  ∧ (∀ k failure, (3 ≤ k ≤ 6)%nat → Env.fault env (k + n)%nat = Some failure →
     ∃ surfaced, fst (addInvoice env invoiceData w) = Thrown surfaced
                 ∧ Store.error (World.store w') = Some surfaced).
Proof.
  intros (Hid & Hc & Hcid & Hitems) F0 F1 F2 n w' id made. subst n w' id made.
  enter_addInvoice Hid Hc Hcid.
  rewrite F0. settle. rewrite F1. settle. rewrite F2. settle.
  destruct (Env.fault env (S (S (S (length (World.calls w)))))) as [m3|] eqn:F3; settle.
  { split_and!.
    - eexists. split_calls. split; [reflexivity | no_such_call].
    - find_elem.
    - eexists. split; [find_elem | reflexivity].
    - done.
    - intros. eauto. }
  destruct (Env.fault env (S (S (S (S (length (World.calls w))))))) as [m4|] eqn:F4; settle.
  { split_and!.
    - eexists. split_calls. split; [reflexivity | no_such_call].
    - find_elem.
    - eexists. split; [find_elem | reflexivity].
    - done.
    - intros. eauto. }
  destruct (Env.fault env (S (S (S (S (S (length (World.calls w)))))))) as [m5|] eqn:F5; settle.
  { split_and!.
    - eexists. split_calls. split; [reflexivity | no_such_call].
    - find_elem.
    - eexists. split; [find_elem | reflexivity].
    - done.
    - intros. eauto. }
  destruct (Env.fault env (S (S (S (S (S (S (length (World.calls w))))))))) as [m6|] eqn:F6; settle.
  { split_and!.
    - eexists. split_calls. split; [reflexivity | no_such_call].
    - find_elem.
    - eexists. split; [find_elem | reflexivity].
    - done.
    - intros. eauto. }
  assert (Hno : ∀ k failure, (3 ≤ k ≤ 6)%nat →
            Env.fault env (k + length (World.calls w))%nat = Some failure → False).
  { intros k failure Hk Hf.
    assert (k = 3 ∨ k = 4 ∨ k = 5 ∨ k = 6)%nat as [-> | [-> | [-> | ->]]] by lia;
      simpl in Hf; congruence. }
  destruct (Env.fault env (S (S (S (S (S (S (S (length (World.calls w)))))))))) as [m7|] eqn:F7; settle.
  - split_and!.
    + eexists. split_calls. split; [reflexivity | no_such_call].
    + find_elem.
    + eexists. split; [find_elem | reflexivity].
    + intros. split_and!; try done. eexists _, _. reflexivity.
    + intros k failure Hk Hf. destruct (Hno k failure Hk Hf).
  - split_and!.
    + eexists. split_calls. split; [reflexivity | no_such_call].
    + find_elem.
    + eexists. split; [find_elem | reflexivity].
    + intros. split_and!; try done. eexists _, _. reflexivity.
    + intros k failure Hk Hf. destruct (Hno k failure Hk Hf).
Qed.

Lemma addInvoice_counter_failure_witness :
  let env := Env.mk (λ n, if Nat.eqb n 2 then Some "busy" else None)
                    (Env.clock Sample.calm) (Env.uuid Sample.calm)
                    (Env.invoiceId Sample.calm) in
  let w := Sample.world Sample.shop Sample.emptyStore in
  fst (addInvoice env Sample.order w) = Returned tt
  ∧ Store.error (World.store (snd (addInvoice env Sample.order w))) = None.
Proof.
  intros env w.
  pose proof (addInvoice_counter_failure env w Sample.order Sample.jean "busy") as H.
  destruct H as (_ & _ & _ & H & _).
  - unfold wellFormed. split_and!; done.
  - reflexivity.
  - reflexivity.
  - reflexivity.
  - destruct H as (H1 & H2 & _); try reflexivity. split; [exact H1 | exact H2].
Defined.

(** C7, as stated, fails: the two inserts succeed, the counter update
    fails and so does the first read of the reload; the invoice is in the
    table, and the operation throws the load error instead of
    succeeding. *)
Lemma addInvoice_counter_failure_counterexample :
  let env := Env.mk (λ n, if Nat.ltb n 2 then None else Some "offline")
                    (Env.clock Sample.calm) (Env.uuid Sample.calm)
                    (Env.invoiceId Sample.calm) in
  let w := Sample.world Sample.shop Sample.emptyStore in
  let w' := snd (addInvoice env Sample.order w) in
  Env.fault env 0 = None ∧ Env.fault env 1 = None ∧ Env.fault env 2 = Some "offline"
  ∧ map InvoiceRow.id (Backend.invoices (World.backend w')) = ["INV-1"; "INV-2"; "INV-9"]
  ∧ fst (addInvoice env Sample.order w) = Thrown "Failed to load invoices: offline"
  ∧ Store.error (World.store w') = Some "Failed to load invoices: offline"
  ∧ fst (addInvoice env Sample.order w) ≠ Returned tt.
Proof. split_and!; try reflexivity. discriminate. Qed.

(** ** The visit counter *)

Lemma patchClientVisit_id id visits visited row :
  ClientRow.id (patchClientVisit id visits visited row) = ClientRow.id row.
Proof. unfold patchClientVisit. by destruct (bool_decide _). Qed.

Lemma toClient_patched now id visits visited row :
  visited ≠ "" → ClientRow.id row = id →
  Client.visitCount (toClient now (patchClientVisit id visits visited row)) = visits
  ∧ Client.lastVisit (toClient now (patchClientVisit id visits visited row)) = visited.
Proof.
  intros Hv Hid. unfold patchClientVisit.
  rewrite (bool_decide_eq_true_2 _ Hid). unfold toClient, orElse. simpl.
  apply falsy_false in Hv. by rewrite Hv, orZero_id.
Qed.

Lemma elem_of_reloaded_clients now id visits visited (rows : list ClientRow.t) c :
  c ∈ map (toClient now) (rev (map (patchClientVisit id visits visited) rows)) ↔
  ∃ row, row ∈ rows ∧ c = toClient now (patchClientVisit id visits visited row).
Proof.
  rewrite list_elem_of_In, in_map_iff. split.
  - intros (r & <- & Hr). apply in_rev, in_map_iff in Hr as (row & <- & Hrow).
    exists row. by rewrite list_elem_of_In.
  - intros (row & Hrow & ->). eexists. split; [reflexivity|].
    apply in_rev. rewrite rev_involutive. apply in_map. by apply list_elem_of_In.
Qed.

(** C4. An invoice is created for a client whose row exists in the
    backend and whose snapshot carries visit count N. When the create
    completes (so that the reload has taken place) and its counter update
    has succeeded, the client is in the reloaded snapshot, with visit
    count N + 1 and with the time of the update as its last visit. *)
Theorem addInvoice_visit_counter (env : Env.t) (w : World.t)
    (invoiceData : InvoiceData.t) (client : Client.t) (N : Z) :
  wellFormed invoiceData client →
  Client.visitCount client = N →
  (∃ row, row ∈ Backend.clients (World.backend w) ∧ ClientRow.id row = Client.id client) →
  Env.fault env (2 + length (World.calls w))%nat = None →
  fst (addInvoice env invoiceData w) = Returned tt →
  let snapshot := Store.clients (World.store (snd (addInvoice env invoiceData w))) in
  let visited := Date.toISOString (Env.clock env (2 + length (World.calls w))%nat) in
  (∃ c, c ∈ snapshot ∧ Client.id c = Client.id client)
  ∧ (∀ c, c ∈ snapshot → Client.id c = Client.id client →
          Client.visitCount c = N + 1 ∧ Client.lastVisit c = visited).
Proof.
  intros (Hid & Hc & Hcid & Hitems) HN (row & Hrow & Hrid) F2 Hret snapshot visited.
  subst snapshot visited. revert Hret.
  enter_addInvoice Hid Hc Hcid.
  destruct (Env.fault env (length (World.calls w))) eqn:F0; settle; [intros ?; discriminate|].
  simpl in F2.
  destruct (Env.fault env (S (length (World.calls w)))) eqn:F1; settle; rewrite F2; settle;
    [intros ?; discriminate|].
  destruct (Env.fault env (S (S (S (length (World.calls w)))))) eqn:F3; settle; [intros ?; discriminate|].
  destruct (Env.fault env (S (S (S (S (length (World.calls w))))))) eqn:F4; settle; [intros ?; discriminate|].
  destruct (Env.fault env (S (S (S (S (S (length (World.calls w)))))))) eqn:F5; settle; [intros ?; discriminate|].
  destruct (Env.fault env (S (S (S (S (S (S (length (World.calls w))))))))) eqn:F6; settle; [intros ?; discriminate|].
  assert (Hkey : ∀ now,
    (∃ c, c ∈ map (toClient now)
                 (rev (map (patchClientVisit (Client.id client) (Client.visitCount client + 1)
                              (Date.toISOString (Env.clock env (S (S (length (World.calls w))))))
                           ) (Backend.clients (World.backend w))))
          ∧ Client.id c = Client.id client)
    ∧ (∀ c, c ∈ map (toClient now)
                 (rev (map (patchClientVisit (Client.id client) (Client.visitCount client + 1)
                              (Date.toISOString (Env.clock env (S (S (length (World.calls w))))))
                           ) (Backend.clients (World.backend w)))) →
            Client.id c = Client.id client →
            Client.visitCount c = N + 1
            ∧ Client.lastVisit c
              = Date.toISOString (Env.clock env (S (S (length (World.calls w))))))).
  { intros now. split.
    - eexists. split.
      + apply elem_of_reloaded_clients. exists row. split; [done | reflexivity].
      + simpl. by rewrite patchClientVisit_id.
    - intros c (r & Hr & ->)%elem_of_reloaded_clients E.
      simpl in E. rewrite patchClientVisit_id in E. rewrite <- HN.
      apply toClient_patched; [apply toISOString_nonempty | done]. }
  destruct (Env.fault env (S (S (S (S (S (S (S (length (World.calls w)))))))))) eqn:F7;
    settle; intros _; apply Hkey.
Qed.

Lemma addInvoice_visit_counter_witness :
  let w := Sample.world Sample.shop Sample.emptyStore in
  ∃ c, c ∈ Store.clients (World.store (snd (addInvoice Sample.calm Sample.order w)))
       ∧ Client.id c = "c1"
       ∧ Client.visitCount c = 0 + 1
       ∧ Client.lastVisit c = "2024-01-05T10:30:07.045Z".
Proof.
  intros w.
  destruct (addInvoice_visit_counter Sample.calm w Sample.order Sample.jean 0)
    as [(c & Hc & Hid) Hall].
  - unfold wellFormed. split_and!; done.
  - reflexivity.
  - exists Sample.jeanRow. split; [|reflexivity]. apply elem_of_cons. by left.
  - reflexivity.
  - reflexivity.
  - exists c. destruct (Hall c Hc Hid) as [Hv Hl]. split_and!; done.
Defined.

(** ** Changing the status of an invoice *)

(** C8, as the code has it. [updateInvoiceStatus] sends one patch, of
    [status] and [updated_at], and waits for its outcome. When the backend
    accepts the patch, the snapshot is then updated in place, without a
    reload: an invoice with the given id gets the new status and the
    current time as [updatedAt] and keeps its other fields, every other
    invoice is as it was; an audit row with action "status_update" is sent
    next. When the backend rejects the patch, the invoices of the snapshot
    are left as they were, no audit row is sent and the error flag is set.
    In both cases the operation returns without throwing. *)
Theorem updateInvoiceStatus_effect (env : Env.t) (w : World.t) (id : string)
    (status : Status) :
  let n := length (World.calls w) in
  let w' := snd (updateInvoiceStatus env id status w) in
  let patch := UpdateInvoiceStatus id status (Date.toISOString (Env.clock env n)) in
  fst (updateInvoiceStatus env id status w) = Returned tt
  ∧ (Env.fault env n = None →
     World.calls w' = InsertAudit (statusAudit (World.store w) id status)
                        :: patch :: World.calls w
     ∧ Forall2 (λ old new,
                  if bool_decide (Invoice.id old = id)
                  then Invoice.status new = status
                       ∧ Invoice.updatedAt new = Date.toISOString (Env.clock env (S n))
                       ∧ sameButStatus old new
                  else new = old)
               (Store.invoices (World.store w)) (Store.invoices (World.store w'))
     ∧ Store.clients (World.store w') = Store.clients (World.store w)
     ∧ Store.error (World.store w') = None
     ∧ Store.loading (World.store w') = false)
  ∧ (∀ message, Env.fault env n = Some message →
     World.calls w' = patch :: World.calls w
     ∧ World.backend w' = World.backend w
     ∧ Store.invoices (World.store w') = Store.invoices (World.store w)
     ∧ Store.error (World.store w')
       = Some ("Failed to update invoice status: " +:+ message)
     ∧ Store.loading (World.store w') = false).
Proof.
  intros n w' patch. subst n w' patch. unfold_ops. simpl.
  destruct (Env.fault env (length (World.calls w))) as [m|] eqn:F0; simpl.
  - split_and!; [done | done |]. intros message [= <-]. done.
  - destruct (Env.fault env (S (length (World.calls w)))) eqn:F1; simpl.
    all: split_and!; [done | | done]; intros _; split_and!; try done.
    all: induction (Store.invoices (World.store w)) as [|x l IH]; simpl;
      constructor; try done.
    all: destruct (bool_decide (Invoice.id x = id)); [|done].
    all: unfold sameButStatus; simpl; split_and!; done.
Qed.

Lemma updateInvoiceStatus_effect_witness :
  let w := snd (loadInvoices Sample.calm (Sample.world Sample.shop Sample.emptyStore)) in
  map Invoice.status
      (Store.invoices (World.store (snd (updateInvoiceStatus Sample.calm "INV-1" completed w))))
  = [completed]
  ∧ World.calls (snd (updateInvoiceStatus Sample.calm "INV-1" completed w))
    = InsertAudit (statusAudit (World.store w) "INV-1" completed)
        :: UpdateInvoiceStatus "INV-1" completed "2024-01-05T10:30:07.045Z"
        :: World.calls w.
Proof.
  intros w. split; [reflexivity|].
  exact (proj1 (proj1 (proj2 (updateInvoiceStatus_effect Sample.calm w "INV-1" completed))
                  eq_refl)).
Defined.

(** C8, as stated, fails: the patch carries [updated_at] besides
    [status], and when the backend rejects it the invoice in the snapshot
    keeps its old status and no audit row is sent. *)
Lemma updateInvoiceStatus_counterexample :
  let env := Env.mk (λ n, if Nat.eqb n 3 then Some "offline" else None)
                    (Env.clock Sample.calm) (Env.uuid Sample.calm)
                    (Env.invoiceId Sample.calm) in
  let w := snd (loadInvoices env (Sample.world Sample.shop Sample.emptyStore)) in
  let w' := snd (updateInvoiceStatus env "INV-1" completed w) in
  map (λ invoice, (Invoice.id invoice, Invoice.status invoice))
      (Store.invoices (World.store w)) = [("INV-1", pending)]
  ∧ World.calls w'
    = UpdateInvoiceStatus "INV-1" completed "2024-01-05T10:30:07.045Z" :: World.calls w
  ∧ map (λ invoice, (Invoice.id invoice, Invoice.status invoice))
        (Store.invoices (World.store w')) = [("INV-1", pending)]
  ∧ Backend.audit_logs (World.backend w') = [].
Proof. split_and!; reflexivity. Qed.

(** ** The session holder *)




(** ** The totals of a created invoice *)






Local Opaque addInvoice addClient.


Local Transparent addInvoice addClient.


(** The store does not check the total: an invoice whose total is not
    the sum of its items is created as it is given. *)
Example addInvoice_unchecked_total :
  let invoiceData :=
    InvoiceData.mk "INV-9" (Some Sample.jean) [Sample.shirt] 5 "CASH" pending
                   None None None in
  let w' := snd (addInvoice Sample.calm invoiceData
                   (Sample.world Sample.shop Sample.emptyStore)) in
  fst (addInvoice Sample.calm invoiceData (Sample.world Sample.shop Sample.emptyStore))
  = Returned tt
  ∧ map (λ invoice, (Invoice.id invoice, Invoice.total invoice,
                     map InvoiceItem.totalPrice (Invoice.items invoice)))
        (Store.invoices (World.store w'))
    = [("INV-9", 5, [2000]); ("INV-1", 2000, [2000])].
Proof. split; reflexivity. Qed.

(** ** The scenarios of the specification *)

(** Jean is a new client; an invoice with two shirts at 1000 is created.
    The invoice has total 2000, its item has total price 2000, and after
    the reload the client has visit count 1. *)
Example scenario_first_invoice :
  let w' := snd (handleSubmit Sample.calm None Sample.firstDay) in
  map (λ invoice, (Invoice.total invoice,
                   map InvoiceItem.totalPrice (Invoice.items invoice)))
      (Store.invoices (World.store w')) = [(2000, [2000])]
  ∧ map (λ c, (Client.name c, Client.visitCount c)) (Store.clients (World.store w'))
    = [("Jean", 1)]
  ∧ map ClientRow.visit_count (Backend.clients (World.backend w')) = [1].
Proof. split_and!; reflexivity. Qed.

(** The status of an invoice goes from pending to completed: the snapshot
    shows it without a reload, and the audit log has the row. *)
Example scenario_status_update :
  let w := snd (loadInvoices Sample.calm (Sample.world Sample.shop Sample.emptyStore)) in
  let w' := snd (updateInvoiceStatus Sample.calm "INV-1" completed w) in
  map Invoice.status (Store.invoices (World.store w)) = [pending]
  ∧ map Invoice.status (Store.invoices (World.store w')) = [completed]
  ∧ map AuditRow.action (Backend.audit_logs (World.backend w')) = ["status_update"]
  ∧ List.filter (λ c, match c with SelectInvoices => true | _ => false end)
                (World.calls w')
    = List.filter (λ c, match c with SelectInvoices => true | _ => false end)
                  (World.calls w).
Proof. split_and!; reflexivity. Qed.

(** * Further properties of the code *)

(** ** The item join of [loadInvoices] *)

Lemma itemsMap_snoc l x :
  itemsMap (l ++ [x])
  = let m := itemsMap l in
    let m' := match m !! ItemRow.invoice_id x with
              | None => <[ItemRow.invoice_id x := []]> m
              | Some _ => m
              end in
    <[ItemRow.invoice_id x := (default [] (m' !! ItemRow.invoice_id x) ++ [x])%list]> m'.
Proof. unfold itemsMap. by rewrite foldl_app. Qed.

(** The group of an invoice id is the fetched item rows of that invoice,
    in the order they were fetched. *)
Lemma itemsMap_lookup itemsData k :
  default [] (itemsMap itemsData !! k)
  = List.filter (λ item, bool_decide (ItemRow.invoice_id item = k)) itemsData.
Proof.
  induction itemsData as [|x l IH] using rev_ind;
    [unfold itemsMap; simpl; rewrite lookup_empty; reflexivity|].
  rewrite itemsMap_snoc, List.filter_app, <- IH. simpl.
  destruct (decide (ItemRow.invoice_id x = k)) as [E|E].
  - rewrite (bool_decide_eq_true_2 _ E). subst k. rewrite lookup_insert_eq. simpl.
    destruct (itemsMap l !! ItemRow.invoice_id x) eqn:L; simpl.
    + by rewrite L.
    + by rewrite lookup_insert_eq.
  - rewrite (bool_decide_eq_false_2 _ E), app_nil_r, lookup_insert_ne by done.
    destruct (itemsMap l !! ItemRow.invoice_id x) eqn:L; [done|].
    by rewrite lookup_insert_ne.
Qed.



(** The store with another invoice snapshot. *)
Lemma set_invoices_same s : Store.set_invoices (Store.invoices s) s = s.
Proof. by destruct s. Qed.

(** X2. [loadInvoices] only reads: whatever its outcome, the tables and
    local storage are as before, the store differs from before in its
    invoice snapshot at most, and every statement it sends is a select. *)
Theorem loadInvoices_reads_only (env : Env.t) (w : World.t) :
  let w' := snd (loadInvoices env w) in
  World.backend w' = World.backend w
  ∧ World.localStorage w' = World.localStorage w
  ∧ World.store w' = Store.set_invoices (Store.invoices (World.store w')) (World.store w)
  ∧ ∃ new, World.calls w' = (new ++ World.calls w)%list
           ∧ ∀ c, c ∈ new → c = SelectInvoices ∨ c = SelectClients false ∨ c = SelectItems.
Proof.
  intros w'. subst w'. unfold_ops.
  destruct (Env.fault env (length (World.calls w))); settle.
  { rewrite set_invoices_same. split_and!; try done. split_calls.
    intros c [->|[]%elem_of_nil]%elem_of_cons. auto. }
  destruct (rev (Backend.invoices (World.backend w))) as [|h hs]; settle.
  { split_and!; try done. split_calls.
    intros c [->|[]%elem_of_nil]%elem_of_cons. auto. }
  destruct (Env.fault env (S (length (World.calls w)))); settle.
  { rewrite set_invoices_same. split_and!; try done. split_calls.
    intros c [->|[->|[]%elem_of_nil]%elem_of_cons]%elem_of_cons; auto. }
  destruct (Env.fault env (S (S (length (World.calls w))))); settle.
  { rewrite set_invoices_same. split_and!; try done. split_calls.
    intros c [->|[->|[->|[]%elem_of_nil]%elem_of_cons]%elem_of_cons]%elem_of_cons; auto. }
  split_and!; try done. split_calls.
  intros c [->|[->|[->|[]%elem_of_nil]%elem_of_cons]%elem_of_cons]%elem_of_cons; auto.
Qed.

(** X3. A failure of [loadInvoices] is the failure of one of its three
    fetches. The load stops at the first fetch that fails, having sent
    that fetch and the ones before it, throws the message of that fetch
    and leaves the store, with its stale snapshot, as it was. *)
Theorem loadInvoices_failure (env : Env.t) (w : World.t) (e : string) :
  fst (loadInvoices env w) = Thrown e →
  let n := length (World.calls w) in
  let w' := snd (loadInvoices env w) in
  World.store w' = World.store w
  ∧ ∃ k message,
      (k < 3)%nat
      ∧ Env.fault env (k + n)%nat = Some message
      ∧ (∀ j, (j < k)%nat → Env.fault env (j + n)%nat = None)
      ∧ length (World.calls w') = (S k + n)%nat
      ∧ e = match k with
            | 0%nat => "Failed to load invoices: "
            | 1%nat => "Failed to load clients: "
            | _ => "Failed to load invoice items: "
            end +:+ message.
Proof.
  intros H n w'. subst n w'. split; [by apply (loadInvoices_thrown env w e)|].
  revert H. unfold_ops.
  destruct (Env.fault env (length (World.calls w))) as [m|] eqn:F0; settle.
  { intros [= <-]. exists 0%nat, m. split_and!; try done; [lia | intros; lia]. }
  destruct (rev (Backend.invoices (World.backend w))) as [|h hs]; settle; [done|].
  destruct (Env.fault env (S (length (World.calls w)))) as [m|] eqn:F1; settle.
  { intros [= <-]. exists 1%nat, m. split_and!; try done; [lia|].
    intros j Hj. by assert (j = 0)%nat as -> by lia. }
  destruct (Env.fault env (S (S (length (World.calls w))))) as [m|] eqn:F2; settle; [|done].
  intros [= <-]. exists 2%nat, m. split_and!; try done; [lia|].
  intros j Hj. assert (j = 0 ∨ j = 1)%nat as [-> | ->] by lia; done.
Qed.

Lemma loadInvoices_failure_witness :
  let env := Env.mk (λ n, if Nat.eqb n 1 then Some "offline" else None)
                    (Env.clock Sample.calm) (Env.uuid Sample.calm)
                    (Env.invoiceId Sample.calm) in
  let w := Sample.world Sample.shop Sample.emptyStore in
  World.store (snd (loadInvoices env w)) = World.store w.
Proof.
  intros env w.
  exact (proj1 (loadInvoices_failure env w "Failed to load clients: offline" eq_refl)).
Defined.

(** X4. With no invoice header in the table, [loadInvoices] sends the one
    fetch of the headers and nothing else, and publishes the empty list:
    the clients and the items are not fetched, so the load succeeds even
    where those fetches would fail. *)
Theorem loadInvoices_empty (env : Env.t) (w : World.t) :
  Backend.invoices (World.backend w) = [] →
  Env.fault env (length (World.calls w)) = None →
  let w' := snd (loadInvoices env w) in
  fst (loadInvoices env w) = Returned tt
  ∧ World.calls w' = SelectInvoices :: World.calls w
  ∧ Store.invoices (World.store w') = []
  ∧ World.console w' = World.console w.
Proof.
  intros Hempty F0 w'. subst w'. unfold_ops. rewrite F0, Hempty. by simpl.
Qed.

Lemma loadInvoices_empty_witness :
  let env := Env.mk (λ n, if Nat.eqb n 0 then None else Some "offline")
                    (Env.clock Sample.calm) (Env.uuid Sample.calm)
                    (Env.invoiceId Sample.calm) in
  let w := Sample.world Sample.nameless
             (Store.set_invoices [Sample.pickupAt "A" "2024-01-05" "00:30:00"]
                                 Sample.emptyStore) in
  fst (loadInvoices env w) = Returned tt
  ∧ Store.invoices (World.store (snd (loadInvoices env w))) = [].
Proof.
  intros env w.
  destruct (loadInvoices_empty env w eq_refl eq_refl) as (H1 & _ & H2 & _).
  split; [exact H1 | exact H2].
Defined.

(** ** Clients *)

Lemma orElse_nonempty x d : d ≠ "" → orElse x d ≠ "".
Proof.
  intros Hd. unfold orElse. destruct x as [s|]; [|done].
  destruct (falsy s) eqn:E; [done|]. by apply falsy_false.
Qed.

Lemma orUndefined_nonempty s : s ≠ "" → orUndefined (Some s) ≠ None.
Proof. intros H. unfold orUndefined. apply falsy_false in H. by rewrite H. Qed.

(** X5. When the insert succeeds, [addClient] returns the new client,
    with the id the backend generated, puts it in front of the client
    snapshot and adds one row to the table. The client it returns is the
    client a reload gives for that row: after a successful [loadClients]
    it is again the first client of the snapshot. *)
Theorem addClient_success (env : Env.t) (w : World.t) (clientData : ClientData.t) :
  Env.fault env (length (World.calls w)) = None →
  let n := length (World.calls w) in
  let w' := snd (addClient env clientData w) in
  ∃ c row,
    fst (addClient env clientData w) = Returned (Some c)
    ∧ Client.id c = Env.uuid env n 0
    ∧ Client.name c = ClientData.name clientData
    ∧ Client.phone c = ClientData.phone clientData
    ∧ Client.visitCount c = ClientData.visitCount clientData
    ∧ Store.clients (World.store w') = c :: Store.clients (World.store w)
    ∧ Store.invoices (World.store w') = Store.invoices (World.store w)
    ∧ Backend.clients (World.backend w') = (Backend.clients (World.backend w) ++ [row])%list
    ∧ (∀ now, toClient now row = c)
    ∧ (fst (loadClients env w') = Returned tt →
       head (Store.clients (World.store (snd (loadClients env w')))) = Some c).
Proof.
  intros F0 n w'. subst n w'. unfold_ops. simpl.
  destruct (Env.fault env (length (World.calls w))); [done|]. clear F0. settle.
  set (row := {| ClientRow.id := Env.uuid env (length (World.calls w)) 0;
                 ClientRow.name := ClientData.name clientData |}).
  assert (Hrow : ∀ now now', toClient now row = toClient now' row).
  { intros now now'. apply toClient_now. subst row. simpl.
    apply orUndefined_nonempty.
    destruct (falsy _) eqn:E; [apply toISOString_nonempty | by apply falsy_false]. }
  eexists (toClient _ row), row.
  destruct (Env.fault env (S (length (World.calls w)))) eqn:F1; settle.
  all: split_and!; try done; try (subst row; simpl; by rewrite ?orZero_id).
  all: destruct (Env.fault env (S (S (length (World.calls w))))) eqn:F2; settle;
    try done.
  all: intros _; f_equal; apply Hrow.
Qed.

Lemma addClient_success_witness :
  let w := Sample.world Sample.shop Sample.emptyStore in
  let w' := snd (addClient Sample.calm
                   (ClientData.mk "Marie" "+250788222222" None 0 false "") w) in
  ∃ c, fst (addClient Sample.calm
              (ClientData.mk "Marie" "+250788222222" None 0 false "") w)
       = Returned (Some c)
       ∧ Client.id c = "row-0-0"
       ∧ head (Store.clients (World.store (snd (loadClients Sample.calm w')))) = Some c.
Proof.
  intros w w'.
  destruct (addClient_success Sample.calm w
              (ClientData.mk "Marie" "+250788222222" None 0 false "") eq_refl)
    as (c & row & Hr & Hid & _ & _ & _ & _ & _ & _ & _ & Hre).
  exists c. split_and!; [exact Hr | exact Hid | exact (Hre eq_refl)].
Defined.

(** X6. When the insert fails, [addClient] does not throw: it returns no
    client, sets the error flag to the message of the insert, shows an
    error toast, and leaves both snapshots and the tables as they were; no
    audit row is sent. *)
Theorem addClient_failure (env : Env.t) (w : World.t) (clientData : ClientData.t)
    (message : string) :
  Env.fault env (length (World.calls w)) = Some message →
  let w' := snd (addClient env clientData w) in
  let surfaced := "Failed to add client: " +:+ message in
  fst (addClient env clientData w) = Returned None
  ∧ World.store w'
    = Store.set_loading false (Store.set_error (Some surfaced) (World.store w))
  ∧ World.backend w' = World.backend w
  ∧ head (World.toasts w')
    = Some (Toast.mk "Error adding client" (Some surfaced) destructive)
  ∧ ∃ row, World.calls w' = InsertClient row :: World.calls w.
Proof.
  intros F0 w' surfaced. subst w' surfaced. unfold_ops. simpl. rewrite F0. simpl.
  split_and!; try done. eexists. reflexivity.
Qed.

Lemma addClient_failure_witness :
  let env := Env.mk (λ _, Some "offline") (Env.clock Sample.calm)
                    (Env.uuid Sample.calm) (Env.invoiceId Sample.calm) in
  let w := Sample.world Sample.shop Sample.emptyStore in
  fst (addClient env (ClientData.mk "Marie" "+250788222222" None 0 false "") w)
  = Returned None
  ∧ World.backend
      (snd (addClient env (ClientData.mk "Marie" "+250788222222" None 0 false "") w))
    = World.backend w.
Proof.
  intros env w.
  destruct (addClient_failure env w
              (ClientData.mk "Marie" "+250788222222" None 0 false "") "offline" eq_refl)
    as (H1 & _ & H2 & _).
  split; [exact H1 | exact H2].
Defined.

Lemma loadClients_returned env w :
  fst (loadClients env w) = Returned tt →
  World.store (snd (loadClients env w))
  = Store.set_clients
      (map (toClient (Date.toISOString (Env.clock env (S (length (World.calls w))))))
           (rev (Backend.clients (World.backend w))))
      (World.store w).
Proof.
  unfold_ops. destruct (Env.fault env (length (World.calls w))); simpl; done.
Qed.

Lemma loadClients_thrown env w e :
  fst (loadClients env w) = Thrown e →
  World.store (snd (loadClients env w)) = World.store w.
Proof.
  unfold_ops. destruct (Env.fault env (length (World.calls w))); simpl; done.
Qed.

Lemma loadClients_backend env w :
  World.backend (snd (loadClients env w)) = World.backend w.
Proof.
  unfold_ops. destruct (Env.fault env (length (World.calls w))); simpl; done.
Qed.

(** X7. After a successful [loadClients] the snapshot has one client for
    each row of the table, newest first, and the invoice snapshot is as
    before. A second load, whether it succeeds or fails, gives the same
    clients in the same order, and the same snapshot altogether when every
    row has a last visit. *)
Theorem loadClients_reload (env : Env.t) (w : World.t) :
  fst (loadClients env w) = Returned tt →
  let w1 := snd (loadClients env w) in
  let w2 := snd (loadClients env w1) in
  map Client.id (Store.clients (World.store w1))
  = rev (map ClientRow.id (Backend.clients (World.backend w)))
  ∧ Store.invoices (World.store w1) = Store.invoices (World.store w)
  ∧ map Client.id (Store.clients (World.store w2))
    = map Client.id (Store.clients (World.store w1))
  ∧ ((∀ row, row ∈ Backend.clients (World.backend w) →
             orUndefined (ClientRow.last_visit row) ≠ None) →
     Store.clients (World.store w2) = Store.clients (World.store w1)).
Proof.
  intros H1 w1 w2. subst w1 w2.
  rewrite (loadClients_returned env w H1). simpl.
  split; [by rewrite map_map, map_rev|]. split; [done|].
  destruct (fst (loadClients env (snd (loadClients env w)))) as [[]|e] eqn:H2.
  - rewrite (loadClients_returned env _ H2), loadClients_backend. simpl.
    split; [by rewrite !map_map|].
    intros Hv. apply map_ext_in. intros row Hin. apply toClient_now, Hv.
    apply list_elem_of_In. by apply in_rev.
  - rewrite (loadClients_thrown env _ e H2), (loadClients_returned env w H1). done.
Qed.

Lemma loadClients_reload_witness :
  let w := Sample.world Sample.shop Sample.emptyStore in
  map Client.id (Store.clients (World.store (snd (loadClients Sample.ticking w))))
  = ["c1"].
Proof.
  intros w. exact (proj1 (loadClients_reload Sample.ticking w eq_refl)).
Defined.

(** ** The session *)

(** X8. [signOut] removes the two entries of the session from local
    storage and clears the two session fields of the store, whatever they
    were, and touches nothing else: the other entries of local storage,
    the snapshots, the flags and the tables are as before, and no
    statement is sent. In particular it clears what [setCurrentUser] has
    set, the stored name of an earlier user included. *)
Theorem signOut_clears (env : Env.t) (w : World.t) (phone : string) (name : option string) :
  let clear w := snd (signOut w) in
  (fst (signOut w) = Returned tt
   ∧ World.localStorage (clear w) !! "ims_user_phone" = None
   ∧ World.localStorage (clear w) !! "ims_user_name" = None
   ∧ (∀ key, key ≠ "ims_user_phone" → key ≠ "ims_user_name" →
             World.localStorage (clear w) !! key = World.localStorage w !! key)
   ∧ World.store (clear w) = Store.set_user None None (World.store w)
   ∧ World.backend (clear w) = World.backend w
   ∧ World.calls (clear w) = World.calls w)
  ∧ (let w' := clear (snd (setCurrentUser env phone name w)) in
     Store.currentUserPhone (World.store w') = None
     ∧ Store.currentUserName (World.store w') = None
     ∧ World.localStorage w' !! "ims_user_phone" = None
     ∧ World.localStorage w' !! "ims_user_name" = None).
Proof.
  intros clear.
  assert (H : ∀ v, fst (signOut v) = Returned tt
            ∧ World.localStorage (clear v) !! "ims_user_phone" = None
            ∧ World.localStorage (clear v) !! "ims_user_name" = None
            ∧ (∀ key, key ≠ "ims_user_phone" → key ≠ "ims_user_name" →
                      World.localStorage (clear v) !! key = World.localStorage v !! key)
            ∧ World.store (clear v) = Store.set_user None None (World.store v)
            ∧ World.backend (clear v) = World.backend v
            ∧ World.calls (clear v) = World.calls v).
  { intros v. subst clear. unfold signOut, localStorage_removeItem. unfold_ops. simpl.
    split_and!; try done.
    - rewrite lookup_delete_ne by done. apply lookup_delete_eq.
    - apply lookup_delete_eq.
    - intros key H1 H2. by rewrite !lookup_delete_ne. }
  split; [apply H|].
  destruct (H (snd (setCurrentUser env phone name w))) as (_ & Hp & Hn & _ & Hs & _).
  cbv zeta. rewrite Hs. done.
Qed.

(** ** Editing and deleting invoices *)

(** The steps of an operation, with the reloads it calls left folded. *)
Ltac unfold_steps :=
  unfold auditLog in *;
  unfold updateInvoiceRow, deleteInvoiceRow, deleteItems, insertItems in *;
  unfold nowISO, newDate, callCount, request, tryCatch, throw, consoleError, consoleWarn,
    toast, set, get, mbind, mret, Async_bind, Async_ret in *.

(** A successful [loadInvoices] assigns the invoice snapshot and nothing
    else of the store. *)
Lemma loadInvoices_store env w :
  fst (loadInvoices env w) = Returned tt →
  World.store (snd (loadInvoices env w))
  = Store.set_invoices (Store.invoices (World.store (snd (loadInvoices env w))))
                       (World.store w).
Proof.
  unfold_ops.
  destruct (Env.fault env (length (World.calls w))); simpl; [done|].
  destruct (rev (Backend.invoices (World.backend w))) as [|h hs]; simpl; [done|].
  destruct (Env.fault env (S (length (World.calls w)))); simpl; [done|].
  destruct (Env.fault env (S (S (length (World.calls w))))); simpl; [done|].
  by rewrite logs_fold.
Qed.

(** Name the outcome of the reload an operation runs, and of the audit
    insert that follows a reload that succeeds. *)
Ltac reload H :=
  match goal with
  | |- context [loadInvoices ?env ?w] =>
      let Hb := fresh "Hb" in
      let Hs := fresh "Hs" in
      let Hr := fresh "Hr" in
      let Hv := fresh "Hv" in
      let w1 := fresh "w1" in
      pose proof (loadInvoices_backend env w) as Hb;
      pose proof (loadInvoices_thrown env w) as Hs;
      pose proof (loadInvoices_store env w) as Hr;
      pose proof (loadInvoices_returned env w) as Hv;
      destruct (loadInvoices env w) as [[[]|?] w1] eqn:H; simpl in Hb, Hs, Hr, Hv; simpl;
      [specialize (Hr eq_refl); specialize (Hv eq_refl); clear Hs;
       destruct (Env.fault env (length (World.calls w1))); simpl
      |specialize (Hs _ eq_refl); clear Hr Hv]
  end.

Lemma updateInvoice_returns env id updates w :
  fst (updateInvoice env id updates w) = Returned tt.
Proof.
  unfold updateInvoice. unfold_steps. simpl.
  destruct (Env.fault env (length (World.calls w))); simpl; [done|].
  destruct (InvoicePatch.items updates) as [items|]; simpl.
  - destruct (Env.fault env (S (length (World.calls w)))); simpl; [done|].
    destruct items as [|item items]; simpl.
    + reload HL; done.
    + destruct (Env.fault env (S (S (length (World.calls w))))); simpl; [done|].
      reload HL; done.
  - reload HL; done.
Qed.

(** X9. [updateInvoice] never throws and always ends with the loading
    flag off. Either it shows the success toast and the error flag is
    clear, or the error flag holds a message, the error toast shows that
    message, and then the invoice snapshot is the one from before the
    call, although the header may have been patched, and no audit row has
    been written. *)
Theorem updateInvoice_outcome (env : Env.t) (w : World.t) (id : string)
    (updates : InvoicePatch.t) :
  let w' := snd (updateInvoice env id updates w) in
  fst (updateInvoice env id updates w) = Returned tt
  ∧ Store.loading (World.store w') = false
  ∧ ((Store.error (World.store w') = None
      ∧ head (World.toasts w')
        = Some (Toast.mk "Invoice updated successfully!" None default_variant))
     ∨ (∃ message,
          Store.error (World.store w') = Some message
          ∧ head (World.toasts w')
            = Some (Toast.mk "Error updating invoice" (Some message) destructive)
          ∧ Store.invoices (World.store w') = Store.invoices (World.store w)
          ∧ Backend.audit_logs (World.backend w')
            = Backend.audit_logs (World.backend w))).
Proof.
  intros w'. split; [apply updateInvoice_returns|]. subst w'.
  unfold updateInvoice. unfold_steps. simpl.
  destruct (Env.fault env (length (World.calls w))); simpl.
  { split; [done|]. right. eexists. split_and!; done. }
  destruct (InvoicePatch.items updates) as [items|]; simpl.
  - destruct (Env.fault env (S (length (World.calls w)))); simpl.
    { split; [done|]. right. eexists. split_and!; done. }
    destruct items as [|item items]; simpl.
    + reload HL; (split; [done|]); [left; by rewrite Hr | left; by rewrite Hr |].
      right. eexists. split_and!; try reflexivity; simpl; by rewrite ?Hs, ?Hb.
    + destruct (Env.fault env (S (S (length (World.calls w))))); simpl.
      { split; [done|]. right. eexists. split_and!; done. }
      reload HL; (split; [done|]); [left; by rewrite Hr | left; by rewrite Hr |].
      right. eexists. split_and!; try reflexivity; simpl; by rewrite ?Hs, ?Hb.
  - reload HL; (split; [done|]); [left; by rewrite Hr | left; by rewrite Hr |].
    right. eexists. split_and!; try reflexivity; simpl; by rewrite ?Hs, ?Hb.
Qed.

(** X10. The items of an invoice are replaced in two statements with
    nothing to undo the first: when the header update and the delete of
    the old item rows succeed and the insert of the new rows fails,
    [updateInvoice] leaves the invoice with no item row at all. It sends
    nothing further (no compensation, no reload, no audit row), reports
    the failure of the insert, and the snapshot still shows the invoices
    as they were. *)
Theorem updateInvoice_items_lost (env : Env.t) (w : World.t) (id : string)
    (updates : InvoicePatch.t) (items : list InvoiceItem.t) (message : string) :
  let n := length (World.calls w) in
  InvoicePatch.items updates = Some items →
  items ≠ [] →
  Env.fault env n = None →
  Env.fault env (S n) = None →
  Env.fault env (S (S n)) = Some message →
  let w' := snd (updateInvoice env id updates w) in
  (∀ item, item ∈ Backend.invoice_items (World.backend w') →
           ItemRow.invoice_id item ≠ id)
  ∧ Backend.invoices (World.backend w')
    = map (patchInvoice id (toUpdateData updates)) (Backend.invoices (World.backend w))
  ∧ World.calls w'
    = InsertItems (itemsToInsert id items) :: DeleteItems id
        :: UpdateInvoice id (toUpdateData updates) :: World.calls w
  ∧ Store.invoices (World.store w') = Store.invoices (World.store w)
  ∧ Store.error (World.store w')
    = Some ("Failed to update invoice items: " +:+ message).
Proof.
  intros n Hi Hne F0 F1 F2 w'. subst n w'.
  unfold updateInvoice. unfold_steps. simpl. rewrite F0. simpl. rewrite Hi. simpl.
  rewrite F1. simpl. destruct items as [|item items]; [done|]. simpl.
  rewrite F2. simpl. split_and!; try done.
  intros x Hx. apply list_elem_of_In, filter_In in Hx as [_ Hx].
  apply negb_true_iff, bool_decide_eq_false in Hx. done.
Qed.

Lemma updateInvoice_items_lost_witness :
  let env := Env.mk (λ n, if Nat.eqb n 2 then Some "offline" else None)
                    (Env.clock Sample.calm) (Env.uuid Sample.calm)
                    (Env.invoiceId Sample.calm) in
  let w := Sample.world Sample.shop Sample.emptyStore in
  let updates := InvoicePatch.mk None (Some [Sample.shirt]) None None None None None None in
  let w' := snd (updateInvoice env "INV-1" updates w) in
  Backend.invoice_items (World.backend w) = [Sample.shirtRow]
  ∧ ItemRow.invoice_id Sample.shirtRow = "INV-1"
  ∧ Backend.invoice_items (World.backend w') = []
  ∧ Store.error (World.store w') = Some "Failed to update invoice items: offline".
Proof.
  intros env w updates w'.
  destruct (updateInvoice_items_lost env w "INV-1" updates [Sample.shirt] "offline"
              eq_refl ltac:(done) eq_refl eq_refl eq_refl) as (_ & _ & _ & _ & He).
  split_and!; [reflexivity | reflexivity | reflexivity | exact He].
Defined.

Lemma filter_all {A} (p : A → bool) (l : list A) :
  Forall (λ x, p x = true) l → List.filter p l = l.
Proof. induction 1 as [|x l Hx _ IH]; simpl; [done|]. by rewrite Hx, IH. Qed.

Lemma filter_none {A} (p : A → bool) (l : list A) :
  Forall (λ x, p x = false) l → List.filter p l = [].
Proof. induction 1 as [|x l Hx _ IH]; simpl; [done|]. by rewrite Hx. Qed.

Lemma Forall_filter_In {A} (p : A → bool) (l : list A) :
  Forall (λ x, p x = true) (List.filter p l).
Proof. apply List.Forall_forall. intros x Hx. by apply filter_In in Hx as [_ ?]. Qed.

(** The rows that the backend stores for an item insert: the columns
    sent, under fresh ids. *)
Lemma insertItems_rows env k id (items : list InvoiceItem.t) :
  Forall (λ row, ItemRow.invoice_id row = id)
         (imap (newItemRow env k) (itemsToInsert id items))
  ∧ map (λ row, (ItemRow.description row, ItemRow.quantity row,
                 ItemRow.unit_price row, ItemRow.total_price row))
        (imap (newItemRow env k) (itemsToInsert id items))
    = map (λ item, (InvoiceItem.description item, InvoiceItem.quantity item,
                    InvoiceItem.unitPrice item, InvoiceItem.totalPrice item)) items.
Proof.
  unfold newItemRow, itemsToInsert. generalize (Env.uuid env k). intros g. revert g.
  induction items as [|item items IH]; intros g; simpl; [by split|].
  destruct (IH (g ∘ S)) as [IH1 IH2]. split.
  - constructor; [done | exact IH1].
  - f_equal. exact IH2.
Qed.

(** X11. When the header update, the delete of the old item rows and the
    insert of the new ones succeed, [updateInvoice] has replaced the item
    rows of the invoice by the items of the patch, column for column and
    in their order, has left the item rows of every other invoice and the
    client rows alone, and has patched the headers with that id; this
    holds whatever becomes of the reload and of the audit insert that
    follow. When no error is flagged afterwards, the snapshot is the join
    of the tables as they are now. *)
Theorem updateInvoice_replaces_items (env : Env.t) (w : World.t) (id : string)
    (updates : InvoicePatch.t) (items : list InvoiceItem.t) :
  let n := length (World.calls w) in
  InvoicePatch.items updates = Some items →
  Env.fault env n = None →
  Env.fault env (S n) = None →
  items = [] ∨ Env.fault env (S (S n)) = None →
  let b := World.backend w in
  let w' := snd (updateInvoice env id updates w) in
  let b' := World.backend w' in
  map (λ row, (ItemRow.description row, ItemRow.quantity row,
               ItemRow.unit_price row, ItemRow.total_price row))
      (List.filter (λ row, bool_decide (ItemRow.invoice_id row = id))
                   (Backend.invoice_items b'))
  = map (λ item, (InvoiceItem.description item, InvoiceItem.quantity item,
                  InvoiceItem.unitPrice item, InvoiceItem.totalPrice item)) items
  ∧ List.filter (λ row, negb (bool_decide (ItemRow.invoice_id row = id)))
                (Backend.invoice_items b')
    = List.filter (λ row, negb (bool_decide (ItemRow.invoice_id row = id)))
                  (Backend.invoice_items b)
  ∧ Backend.invoices b' = map (patchInvoice id (toUpdateData updates)) (Backend.invoices b)
  ∧ Backend.clients b' = Backend.clients b
  ∧ (Store.error (World.store w') = None →
     ∃ now, Store.invoices (World.store w')
            = buildInvoices now (rev (Backend.invoices b')) (Backend.clients b')
                            (Backend.invoice_items b')).
Proof.
  intros n Hi F0 F1 F2 b w' b'. subst n b w' b'.
  set (old := List.filter (λ row, negb (bool_decide (ItemRow.invoice_id row = id)))
                          (Backend.invoice_items (World.backend w))).
  assert (Hold : List.filter (λ row, bool_decide (ItemRow.invoice_id row = id)) old = []).
  { apply filter_none. eapply Forall_impl; [apply Forall_filter_In|].
    simpl. intros x Hx. by apply negb_true_iff. }
  assert (Hkeep : List.filter (λ row, negb (bool_decide (ItemRow.invoice_id row = id))) old
                  = old).
  { apply filter_all, Forall_filter_In. }
  unfold updateInvoice. unfold_steps. simpl. rewrite F0. simpl. rewrite Hi. simpl.
  rewrite F1. simpl. destruct items as [|item items]; [simpl|].
  - reload HL; rewrite ?Hb; simpl; fold old; rewrite ?Hold, ?Hkeep;
      split_and!; try done.
    all: intros _; eexists; exact Hv.
  - destruct F2 as [F2|F2]; [done|].
    change (0 <? length (item :: items))%nat with true. cbv iota.
    remember (item :: items) as sent eqn:E. clear E item items.
    simpl. rewrite F2. simpl.
    destruct (insertItems_rows env (S (S (length (World.calls w)))) id sent)
      as [Hnew Hcols].
    set (new := imap (newItemRow env (S (S (length (World.calls w)))))
                     (itemsToInsert id sent)) in *.
    assert (Hin : List.filter (λ row, bool_decide (ItemRow.invoice_id row = id)) new = new).
    { apply filter_all. eapply Forall_impl; [exact Hnew|].
      simpl. intros x Hx. by apply bool_decide_eq_true. }
    assert (Hout : List.filter (λ row, negb (bool_decide (ItemRow.invoice_id row = id))) new
                   = []).
    { apply filter_none. eapply Forall_impl; [exact Hnew|].
      simpl. intros x Hx. by apply negb_false_iff, bool_decide_eq_true. }
    reload HL; rewrite ?Hb; simpl; fold old.
    all: rewrite !(List.filter_app _ old), ?Hold, ?Hkeep, ?Hin, ?Hout, ?app_nil_r; simpl.
    all: split_and!; try done.
    all: intros _; eexists; exact Hv.
Qed.

Lemma updateInvoice_replaces_items_witness :
  let w := Sample.world Sample.shop Sample.emptyStore in
  let updates := InvoicePatch.mk None (Some [Sample.shirt; Sample.shirt])
                                 None None None None None None in
  let w' := snd (updateInvoice Sample.calm "INV-1" updates w) in
  map ItemRow.id (Backend.invoice_items (World.backend w')) = ["row-2-0"; "row-2-1"]
  ∧ map (λ row, (ItemRow.description row, ItemRow.quantity row,
                 ItemRow.unit_price row, ItemRow.total_price row))
        (List.filter (λ row, bool_decide (ItemRow.invoice_id row = "INV-1"))
                     (Backend.invoice_items (World.backend w')))
    = [("Shirt wash", 2, 1000, 2000); ("Shirt wash", 2, 1000, 2000)].
Proof.
  intros w updates w'. split; [reflexivity|].
  exact (proj1 (updateInvoice_replaces_items Sample.calm w "INV-1" updates
                  [Sample.shirt; Sample.shirt] eq_refl eq_refl eq_refl
                  (or_intror eq_refl))).
Defined.

Lemma buildInvoice_other_items now cm itemsData id invoice :
  InvoiceRow.id invoice ≠ id →
  buildInvoice now cm
    (itemsMap (List.filter (λ i, negb (bool_decide (ItemRow.invoice_id i = id))) itemsData))
    invoice
  = buildInvoice now cm (itemsMap itemsData) invoice.
Proof.
  intros Hne. unfold buildInvoice. rewrite !itemsMap_lookup.
  replace (List.filter (λ item, bool_decide (ItemRow.invoice_id item = InvoiceRow.id invoice))
             (List.filter (λ i, negb (bool_decide (ItemRow.invoice_id i = id))) itemsData))
    with (List.filter (λ item, bool_decide (ItemRow.invoice_id item = InvoiceRow.id invoice))
            itemsData); [done|].
  induction itemsData as [|x l IH]; simpl; [done|].
  destruct (bool_decide (ItemRow.invoice_id x = id)) eqn:E1; simpl.
  - apply bool_decide_eq_true in E1.
    rewrite bool_decide_eq_false_2 by congruence. exact IH.
  - destruct (bool_decide (ItemRow.invoice_id x = InvoiceRow.id invoice)); by rewrite IH.
Qed.

Lemma buildInvoice_id now cm im invoice built :
  buildInvoice now cm im invoice = Some built → Invoice.id built = InvoiceRow.id invoice.
Proof.
  unfold buildInvoice. destruct (cm !! InvoiceRow.client_id invoice); [|done].
  by intros [= <-].
Qed.

(** Dropping an invoice from the snapshot is what the join gives once its
    header and its item rows are gone from the tables. *)
Lemma buildInvoices_delete now id invoicesData clientsData itemsData :
  List.filter (λ invoice, negb (bool_decide (Invoice.id invoice = id)))
              (buildInvoices now invoicesData clientsData itemsData)
  = buildInvoices now
      (List.filter (λ r, negb (bool_decide (InvoiceRow.id r = id))) invoicesData)
      clientsData
      (List.filter (λ i, negb (bool_decide (ItemRow.invoice_id i = id))) itemsData).
Proof.
  unfold buildInvoices. induction invoicesData as [|r l IH]; simpl; [done|].
  destruct (bool_decide (InvoiceRow.id r = id)) eqn:E; simpl.
  - apply bool_decide_eq_true in E.
    destruct (buildInvoice now (clientsMap clientsData) (itemsMap itemsData) r)
      as [built|] eqn:B; simpl; [|exact IH].
    apply buildInvoice_id in B. rewrite bool_decide_eq_true_2 by congruence. exact IH.
  - apply bool_decide_eq_false in E. rewrite buildInvoice_other_items by done.
    destruct (buildInvoice now (clientsMap clientsData) (itemsMap itemsData) r)
      as [built|] eqn:B; simpl; [|exact IH].
    apply buildInvoice_id in B. rewrite bool_decide_eq_false_2 by congruence.
    simpl. by rewrite IH.
Qed.

(** X12. When the delete succeeds, [deleteInvoice] removes the headers
    with the given id and, by the cascade, their item rows, leaves the
    other rows of both tables and the client rows alone, and drops the
    invoices with that id from the snapshot without reloading. The
    snapshot stays what a load would give: if it was the join of the
    tables before the call, it is the join of the tables after it. *)
Theorem deleteInvoice_success (env : Env.t) (w : World.t) (id : string) :
  Env.fault env (length (World.calls w)) = None →
  let b := World.backend w in
  let w' := snd (deleteInvoice env id w) in
  let b' := World.backend w' in
  fst (deleteInvoice env id w) = Returned tt
  ∧ Backend.invoices b'
    = List.filter (λ r, negb (bool_decide (InvoiceRow.id r = id))) (Backend.invoices b)
  ∧ Backend.invoice_items b'
    = List.filter (λ i, negb (bool_decide (ItemRow.invoice_id i = id)))
                  (Backend.invoice_items b)
  ∧ Backend.clients b' = Backend.clients b
  ∧ Store.invoices (World.store w')
    = List.filter (λ invoice, negb (bool_decide (Invoice.id invoice = id)))
                  (Store.invoices (World.store w))
  ∧ Store.error (World.store w') = None
  ∧ (∀ c, c ∈ World.calls w' → c ∈ World.calls w ∨ c = DeleteInvoice id
                                 ∨ ∃ row, c = InsertAudit row)
  ∧ (∀ now,
       Store.invoices (World.store w)
       = buildInvoices now (rev (Backend.invoices b)) (Backend.clients b)
                       (Backend.invoice_items b) →
       Store.invoices (World.store w')
       = buildInvoices now (rev (Backend.invoices b')) (Backend.clients b')
                       (Backend.invoice_items b')).
Proof.
  intros F0 b w' b'. subst b w' b'.
  unfold deleteInvoice. unfold_steps. simpl. rewrite F0. simpl.
  destruct (Env.fault env (S (length (World.calls w)))); simpl.
  all: split_and!; try done.
  all: try (intros c Hc; repeat (apply elem_of_cons in Hc as [->|Hc]; eauto); tauto).
  all: intros now ->; rewrite buildInvoices_delete, <- List.filter_rev; done.
Qed.

Lemma deleteInvoice_success_witness :
  let w := Sample.world Sample.shop Sample.emptyStore in
  let w' := snd (deleteInvoice Sample.calm "INV-1" w) in
  map InvoiceRow.id (Backend.invoices (World.backend w)) = ["INV-1"; "INV-2"]
  ∧ map InvoiceRow.id (Backend.invoices (World.backend w')) = ["INV-2"]
  ∧ Backend.invoice_items (World.backend w') = [].
Proof.
  intros w w'.
  destruct (deleteInvoice_success Sample.calm w "INV-1" eq_refl)
    as (_ & Hh & Hi & _).
  subst w'. split_and!; [reflexivity | by rewrite Hh | by rewrite Hi].
Defined.

(** X13. When the delete fails, [deleteInvoice] does not throw: the
    tables and the invoice snapshot are as before, the error flag holds
    the message of the delete, an error toast is shown and no audit row is
    sent. *)
Theorem deleteInvoice_failure (env : Env.t) (w : World.t) (id message : string) :
  Env.fault env (length (World.calls w)) = Some message →
  let w' := snd (deleteInvoice env id w) in
  let surfaced := "Failed to delete invoice: " +:+ message in
  fst (deleteInvoice env id w) = Returned tt
  ∧ World.backend w' = World.backend w
  ∧ World.store w'
    = Store.set_loading false (Store.set_error (Some surfaced) (World.store w))
  ∧ World.toasts w'
    = Toast.mk "Error deleting invoice" (Some surfaced) destructive :: World.toasts w
  ∧ World.calls w' = DeleteInvoice id :: World.calls w.
Proof.
  intros F0 w' surfaced. subst w' surfaced.
  unfold deleteInvoice. unfold_steps. simpl. rewrite F0. simpl. done.
Qed.

Lemma deleteInvoice_failure_witness :
  let env := Env.mk (λ _, Some "offline") (Env.clock Sample.calm)
                    (Env.uuid Sample.calm) (Env.invoiceId Sample.calm) in
  let w := Sample.world Sample.shop Sample.emptyStore in
  fst (deleteInvoice env "INV-1" w) = Returned tt
  ∧ World.backend (snd (deleteInvoice env "INV-1" w)) = World.backend w.
Proof.
  intros env w.
  destruct (deleteInvoice_failure env w "INV-1" "offline" eq_refl) as (H1 & H2 & _).
  split; [exact H1 | exact H2].
Defined.

(** ** The invoice list *)

(** X14. [handleDelete] of the invoice list never throws and always ends
    on the toast "Invoice deleted successfully!", also when the delete
    failed in the backend: [deleteInvoice] reports a failure through the
    store and does not throw, so the handler's own error toast ("Please
    try again.") is never shown. After a failed delete the success toast
    sits on top of the error toast of the store and the invoice is still
    in the table. *)
Theorem handleDelete_toast (env : Env.t) (w : World.t) (invoiceId : string) :
  let w' := snd (handleDelete env invoiceId w) in
  fst (handleDelete env invoiceId w) = Returned tt
  ∧ head (World.toasts w')
    = Some (Toast.mk "Invoice deleted successfully!" None default_variant)
  ∧ (∃ new, World.toasts w' = (new ++ World.toasts w)%list
            ∧ Toast.mk "Error deleting invoice" (Some "Please try again.") destructive
              ∉ new)
  ∧ (∀ message,
       Env.fault env (length (World.calls w)) = Some message →
       World.backend w' = World.backend w
       ∧ World.toasts w'
         = Toast.mk "Invoice deleted successfully!" None default_variant
           :: Toast.mk "Error deleting invoice"
                       (Some ("Failed to delete invoice: " +:+ message)) destructive
           :: World.toasts w).
Proof.
  intros w'. subst w'.
  unfold handleDelete, deleteInvoice. unfold_steps. simpl.
  destruct (Env.fault env (length (World.calls w))) as [message|]; simpl.
  - split_and!; try done.
    + eexists [_; _]. split; [reflexivity|].
      intros H. repeat (apply elem_of_cons in H as [H|H]; [discriminate|]).
      by apply elem_of_nil in H.
    + intros ? [= <-]. done.
  - destruct (Env.fault env (S (length (World.calls w)))); simpl.
    all: split_and!; try done.
    all: eexists [_; _]; split; [reflexivity|].
    all: intros H; repeat (apply elem_of_cons in H as [H|H]; [discriminate|]).
    all: by apply elem_of_nil in H.
Qed.

Lemma handleDelete_toast_witness :
  let env := Env.mk (λ _, Some "offline") (Env.clock Sample.calm)
                    (Env.uuid Sample.calm) (Env.invoiceId Sample.calm) in
  let w := Sample.world Sample.shop Sample.emptyStore in
  let w' := snd (handleDelete env "INV-1" w) in
  World.backend w' = World.backend w
  ∧ World.toasts w'
    = [Toast.mk "Invoice deleted successfully!" None default_variant;
       Toast.mk "Error deleting invoice" (Some "Failed to delete invoice: offline")
                destructive].
Proof.
  intros env w w'.
  destruct (handleDelete_toast env w "INV-1") as (_ & _ & _ & H).
  exact (H "offline" eq_refl).
Defined.

(** ** Status and notifications *)

Lemma updateInvoiceStatus_snapshot env w id status :
  Env.fault env (length (World.calls w)) = None →
  Store.invoices (World.store (snd (updateInvoiceStatus env id status w)))
  = map (λ invoice,
           if bool_decide (Invoice.id invoice = id)
           then withStatus status
                  (Date.toISOString (Env.clock env (S (length (World.calls w))))) invoice
           else invoice)
        (Store.invoices (World.store w)).
Proof.
  intros F0. unfold_ops. simpl. rewrite F0. simpl.
  destruct (Env.fault env (S (length (World.calls w)))); simpl; done.
Qed.

(** X15. Once [updateInvoiceStatus] has marked an invoice completed in
    the backend, [getPickupNotifications] no longer returns an invoice
    with that id, whatever the clock reads. Marking it pending or
    cancelled does not silence it: at any clock reading, an invoice that
    was not completed is due after the update exactly when it was due
    before, and the invoices with another id are not affected by either
    update. *)
Theorem updateInvoiceStatus_notifications (env : Env.t) (w : World.t) (id : string)
    (status : Status) :
  Env.fault env (length (World.calls w)) = None →
  let w' := snd (updateInvoiceStatus env id status w) in
  (status = completed →
   ∀ invoice, invoice ∈ notified env w' → Invoice.id invoice ≠ id)
  ∧ (∀ date time,
       map Invoice.id (List.filter (isPickupDue date time)
                         (List.filter (λ invoice, negb (bool_decide (Invoice.id invoice = id)))
                                      (Store.invoices (World.store w'))))
       = map Invoice.id (List.filter (isPickupDue date time)
                           (List.filter (λ invoice, negb (bool_decide (Invoice.id invoice = id)))
                                        (Store.invoices (World.store w)))))
  ∧ (status ≠ completed →
     Forall (λ invoice, Invoice.status invoice ≠ completed) (Store.invoices (World.store w)) →
     ∀ date time,
       map Invoice.id (List.filter (isPickupDue date time) (Store.invoices (World.store w')))
       = map Invoice.id (List.filter (isPickupDue date time) (Store.invoices (World.store w)))).
Proof.
  intros F0 w'. subst w'. unfold notified.
  rewrite getPickupNotifications_run. simpl.
  rewrite (updateInvoiceStatus_snapshot env w id status F0).
  generalize (Date.toISOString (Env.clock env (S (length (World.calls w))))). intros now.
  generalize (Store.invoices (World.store w)). intros l.
  split_and!.
  - intros -> invoice Hin Hid.
    apply list_elem_of_In, filter_In in Hin as [Hin Hdue].
    apply in_map_iff in Hin as (old & Hold & _).
    destruct (bool_decide (Invoice.id old = id)) eqn:E.
    + subst invoice. unfold isPickupDue in Hdue. simpl in Hdue.
      destruct (Invoice.pickupDate old); [|done].
      destruct (Invoice.pickupTime old); [|done].
      by rewrite orb_true_r in Hdue.
    + subst invoice. by apply bool_decide_eq_false in E.
  - intros date time. induction l as [|x l IH]; simpl; [done|].
    destruct (bool_decide (Invoice.id x = id)) eqn:E; simpl.
    + rewrite bool_decide_eq_true_2 by (by apply bool_decide_eq_true in E). simpl. exact IH.
    + rewrite E. simpl. destruct (isPickupDue date time x); simpl; by rewrite IH.
  - intros Hs Hall date time. induction Hall as [|x l Hx _ IH]; simpl; [done|].
    assert (isPickupDue date time
              (if bool_decide (Invoice.id x = id) then withStatus status now x else x)
            = isPickupDue date time x
            ∧ Invoice.id (if bool_decide (Invoice.id x = id) then withStatus status now x
                          else x) = Invoice.id x) as [-> Hid].
    { destruct (bool_decide (Invoice.id x = id)); [|done]. split; [|done].
      unfold isPickupDue. simpl.
      by rewrite (bool_decide_eq_false_2 (status = completed)),
                 (bool_decide_eq_false_2 (Invoice.status x = completed)). }
    destruct (isPickupDue date time x); simpl; by rewrite ?Hid, IH.
Qed.

Lemma updateInvoiceStatus_notifications_witness :
  let w := snd (loadInvoices Sample.calm (Sample.world Sample.shop Sample.emptyStore)) in
  let w' := snd (updateInvoiceStatus Sample.calm "INV-1" completed w) in
  map Invoice.id (notified Sample.calm w) = ["INV-1"]
  ∧ Forall (λ invoice, Invoice.id invoice ≠ "INV-1") (notified Sample.calm w').
Proof.
  intros w w'. split; [reflexivity|].
  apply List.Forall_forall. intros invoice Hin.
  apply (proj1 (updateInvoiceStatus_notifications Sample.calm w "INV-1" completed eq_refl)
           eq_refl invoice).
  by apply list_elem_of_In.
Defined.

(** ** The session and the store's reset *)

(** X16. [reset] puts the store back to its initial state and leaves
    local storage alone, so that the session that [setCurrentUser] has
    persisted survives it: after a sign-in and a [reset] the store knows
    no user while local storage still holds the phone; [signOut] is the
    operation that clears both. *)
Theorem reset_keeps_storage (env : Env.t) (w : World.t) (phone : string)
    (name : option string) (account : UserRow.t) :
  Env.fault env (length (World.calls w)) = None →
  List.filter (λ u, bool_decide (UserRow.phone u = trim phone))
              (Backend.users (World.backend w)) = [account] →
  let signedIn := snd (setCurrentUser env phone name w) in
  let w' := snd (reset signedIn) in
  Store.currentUserPhone (World.store signedIn) = Some (trim phone)
  ∧ World.store w' = Store.mk [] [] None None false None false false
  ∧ World.localStorage w' !! "ims_user_phone" = Some (trim phone)
  ∧ World.localStorage (snd (signOut signedIn)) !! "ims_user_phone" = None.
Proof.
  intros F0 Hu signedIn w'. subst signedIn w'.
  unfold reset, signOut, localStorage_removeItem. unfold_ops. simpl.
  rewrite F0. simpl. rewrite Hu. simpl.
  destruct (orChain (UserRow.name account) name); simpl.
  all: split_and!; try done.
  all: rewrite ?lookup_delete_ne by done; rewrite ?lookup_delete_eq; try done.
  - rewrite lookup_insert_ne by done. apply lookup_insert_eq.
  - apply lookup_insert_eq.
Qed.

Lemma reset_keeps_storage_witness :
  let w := Sample.world Sample.shop Sample.emptyStore in
  let signedIn := snd (setCurrentUser Sample.calm " +250788111111 " None w) in
  World.store (snd (reset signedIn)) = Sample.emptyStore
  ∧ World.localStorage (snd (reset signedIn)) !! "ims_user_phone" = Some "+250788111111".
Proof.
  intros w signedIn.
  destruct (reset_keeps_storage Sample.calm w " +250788111111 " None
              (UserRow.mk (Some "Aline") "+250788111111") eq_refl eq_refl)
    as (_ & H1 & H2 & _).
  split; [exact H1 | exact H2].
Defined.

(** ** The checks of the invoice form *)










(** ** The submit handler *)

Lemma tryCatch_returns (body : Async unit) (handler : string → Async unit) w :
  (∀ e w1, fst (handler e w1) = Returned tt) →
  fst (tryCatch body handler w) = Returned tt.
Proof.
  intros H. unfold tryCatch. destruct (body w) as [[[]|e] w1]; [done|]. apply H.
Qed.

(** The statements of [addInvoice]: none inserts a client, and a header
    that is inserted is for the client of the invoice data. *)
Lemma addInvoice_client_calls env w invoiceData client :
  InvoiceData.client invoiceData = Some client →
  ∃ new,
    World.calls (snd (addInvoice env invoiceData w)) = (new ++ World.calls w)%list
    ∧ (∀ row, InsertClient row ∉ new)
    ∧ (∀ header, InsertInvoice header ∈ new →
                 InvoiceInsert.client_id header = Client.id client).
Proof.
  intros Hc. unfold_ops. simpl. rewrite Hc.
  destruct (falsy (InvoiceData.id invoiceData)); simpl;
    [split_calls; split; each_call|].
  destruct (falsy (Client.id client)); simpl; [split_calls; split; each_call|].
  destruct (InvoiceData.items invoiceData) as [|item items]; simpl;
    [split_calls; split; each_call|].
  destruct (Env.fault env (length (World.calls w))); settle;
    [split_calls; split; each_call|].
  destruct (Env.fault env (S (length (World.calls w)))); settle.
  { destruct (Env.fault env (S (S (length (World.calls w))))); settle;
      split_calls; split; each_call. }
  destruct (Env.fault env (S (S (length (World.calls w))))); settle.
  all: destruct (Env.fault env (S (S (S (length (World.calls w)))))); settle;
    [split_calls; split; each_call|].
  all: destruct (Env.fault env (S (S (S (S (length (World.calls w))))))); settle;
    [split_calls; split; each_call|].
  all: destruct (Env.fault env (S (S (S (S (S (length (World.calls w)))))))); settle;
    [split_calls; split; each_call|].
  all: destruct (Env.fault env (S (S (S (S (S (S (length (World.calls w))))))))); settle;
    [split_calls; split; each_call|].
  all: destruct (Env.fault env (S (S (S (S (S (S (S (length (World.calls w)))))))))); settle;
    split_calls; split; each_call.
Qed.

(** The statements of [loadInvoices] are its three selects. *)
Lemma loadInvoices_selects env w :
  ∃ new,
    World.calls (snd (loadInvoices env w)) = (new ++ World.calls w)%list
    ∧ Forall (λ c, c = SelectInvoices ∨ c = SelectClients false ∨ c = SelectItems) new.
Proof.
  unfold_ops.
  destruct (Env.fault env (length (World.calls w))); simpl;
    [split_calls; repeat constructor; tauto|].
  destruct (rev (Backend.invoices (World.backend w))) as [|h hs]; simpl;
    [split_calls; repeat constructor; tauto|].
  destruct (Env.fault env (S (length (World.calls w)))); simpl;
    [split_calls; repeat constructor; tauto|].
  destruct (Env.fault env (S (S (length (World.calls w))))); simpl;
    [split_calls; repeat constructor; tauto|].
  rewrite logs_fold. simpl. split_calls; repeat constructor; tauto.
Qed.

(** Name the statements of the reload an operation runs. *)
Ltac reload_calls H :=
  match goal with
  | |- context [loadInvoices ?env ?w] =>
      let ls := fresh "ls" in
      let Hsel := fresh "Hsel" in
      let w1 := fresh "w1" in
      destruct (loadInvoices_selects env w) as (ls & H & Hsel);
      destruct (loadInvoices env w) as [[[]|?] w1]; simpl in H; simpl;
      [destruct (Env.fault env (length (World.calls w1))); simpl|]
  end.

(** A call that is none of the three selects is not among the statements
    of a reload that come before the given ones. *)
Ltac not_a_select Hsel :=
  let H := fresh in
  intros ? H;
  repeat (apply elem_of_cons in H as [H|H]; [discriminate|]);
  apply elem_of_app in H as [H|H];
  [apply list_elem_of_In in H;
   destruct (proj1 (List.Forall_forall _ _) Hsel _ H) as [?|[?|?]]; discriminate
  |repeat (apply elem_of_cons in H as [H|H]; [discriminate|]);
   by apply elem_of_nil in H].

(** The statements of [updateInvoice]: none inserts a client or a
    header. *)
Lemma updateInvoice_calls env w id updates :
  ∃ new,
    World.calls (snd (updateInvoice env id updates w)) = (new ++ World.calls w)%list
    ∧ (∀ row, InsertClient row ∉ new)
    ∧ (∀ header, InsertInvoice header ∉ new).
Proof.
  unfold updateInvoice. unfold_steps. simpl.
  destruct (Env.fault env (length (World.calls w))); simpl;
    [split_calls; split; each_call|].
  destruct (InvoicePatch.items updates) as [items|]; simpl.
  - destruct (Env.fault env (S (length (World.calls w)))); simpl;
      [split_calls; split; each_call|].
    destruct items as [|item items]; simpl.
    + reload_calls Hl.
      * eexists (_ :: ls ++ [_; _])%list. rewrite Hl.
        split; [simpl; rewrite <- app_assoc; reflexivity|]. split; not_a_select Hsel.
      * eexists (_ :: ls ++ [_; _])%list. rewrite Hl.
        split; [simpl; rewrite <- app_assoc; reflexivity|]. split; not_a_select Hsel.
      * eexists (ls ++ [_; _])%list. rewrite Hl.
        split; [simpl; rewrite <- app_assoc; reflexivity|]. split; not_a_select Hsel.
    + destruct (Env.fault env (S (S (length (World.calls w))))); simpl;
        [split_calls; split; each_call|].
      reload_calls Hl.
      * eexists (_ :: ls ++ [_; _; _])%list. rewrite Hl.
        split; [simpl; rewrite <- app_assoc; reflexivity|]. split; not_a_select Hsel.
      * eexists (_ :: ls ++ [_; _; _])%list. rewrite Hl.
        split; [simpl; rewrite <- app_assoc; reflexivity|]. split; not_a_select Hsel.
      * eexists (ls ++ [_; _; _])%list. rewrite Hl.
        split; [simpl; rewrite <- app_assoc; reflexivity|]. split; not_a_select Hsel.
  - reload_calls Hl.
    + eexists (_ :: ls ++ [_])%list. rewrite Hl.
      split; [simpl; rewrite <- app_assoc; reflexivity|]. split; not_a_select Hsel.
    + eexists (_ :: ls ++ [_])%list. rewrite Hl.
      split; [simpl; rewrite <- app_assoc; reflexivity|]. split; not_a_select Hsel.
    + eexists (ls ++ [_])%list. rewrite Hl.
      split; [simpl; rewrite <- app_assoc; reflexivity|]. split; not_a_select Hsel.
Qed.

(** What the checks at the head of [onSubmit] come to. *)
Lemma passesChecks_true data :
  passesChecks data = true →
  falsy (trim (InvoiceFormData.clientName data)) = false
  ∧ falsy (trim (InvoiceFormData.clientPhone data)) = false
  ∧ falsy (InvoiceFormData.paymentMethod data) = false
  ∧ Nat.eqb (length (InvoiceFormData.items data)) 0 = false
  ∧ validateItems 0 (InvoiceFormData.items data) = None.
Proof.
  unfold passesChecks.
  rewrite !andb_true_iff, !negb_true_iff, bool_decide_eq_true. tauto.
Qed.

(** Run [onSubmit] past its checks, with the operations of the store it
    calls left folded. *)
Ltac enter_onSubmit H :=
  let Hname := fresh "Hname" in
  let Hphone := fresh "Hphone" in
  let Hpay := fresh "Hpay" in
  let Hlen := fresh "Hlen" in
  let Hitems := fresh "Hitems" in
  destruct (passesChecks_true _ H) as (Hname & Hphone & Hpay & Hlen & Hitems);
  unfold onSubmit, calculateTotal, watchItems, callCount, nowISO, newDate, tryCatch,
    toast, consoleError, get, mbind, mret, Async_bind, Async_ret;
  simpl; rewrite Hname; simpl; rewrite Hphone; simpl; rewrite Hpay; simpl;
  rewrite Hlen; simpl; rewrite Hitems; simpl.

(** A header update that the backend rejects. *)
Lemma updateInvoice_rejected env w id updates message :
  Env.fault env (length (World.calls w)) = Some message →
  World.backend (snd (updateInvoice env id updates w)) = World.backend w
  ∧ Store.error (World.store (snd (updateInvoice env id updates w)))
    = Some ("Failed to update invoice: " +:+ message)
  ∧ World.toasts (snd (updateInvoice env id updates w))
    = Toast.mk "Error updating invoice"
               (Some ("Failed to update invoice: " +:+ message)) destructive
      :: World.toasts w
  ∧ World.calls (snd (updateInvoice env id updates w))
    = UpdateInvoice id (toUpdateData updates) :: World.calls w.
Proof.
  intros F0. unfold updateInvoice. unfold_steps. simpl. rewrite F0. simpl. done.
Qed.

(** A client insert that the backend rejects. *)
Lemma addClient_rejected env w clientData message :
  Env.fault env (length (World.calls w)) = Some message →
  fst (addClient env clientData w) = Returned None
  ∧ World.backend (snd (addClient env clientData w)) = World.backend w
  ∧ Store.invoices (World.store (snd (addClient env clientData w)))
    = Store.invoices (World.store w)
  ∧ (∃ row, World.calls (snd (addClient env clientData w))
            = InsertClient row :: World.calls w
            ∧ ClientInsert.name row = ClientData.name clientData
            ∧ ClientInsert.phone row = ClientData.phone clientData)
  ∧ World.toasts (snd (addClient env clientData w))
    = Toast.mk "Error adding client" (Some ("Failed to add client: " +:+ message))
               destructive
      :: World.toasts w.
Proof.
  intros F0. unfold_ops. simpl. rewrite F0. simpl.
  split_and!; try done. eexists. split_and!; reflexivity.
Qed.

Local Opaque addInvoice addClient updateInvoice.

(** X18. [handleSubmit] and [onSubmit] never throw: whatever the backend
    does, and although [addInvoice] throws what fails in it, the handler
    returns normally. *)
Theorem handleSubmit_returns (env : Env.t) (w : World.t) (editingId : option string)
    (data : InvoiceFormData.t) :
  fst (handleSubmit env editingId w) = Returned tt
  ∧ fst (onSubmit env editingId data w) = Returned tt.
Proof.
  assert (H : ∀ values, fst (onSubmit env editingId values w) = Returned tt).
  { intros values. unfold onSubmit. by apply tryCatch_returns. }
  split; [|apply H]. unfold handleSubmit.
  destruct (invoiceSchema (World.form w)); [apply H | done].
Qed.

(** X19. Clients are told apart by their phone, compared as it was typed:
    when the snapshot has a client with the phone of the form, [onSubmit]
    inserts no client, whatever the name on the form, and a header that it
    inserts is for the first client of the snapshot with that phone; in
    edit mode it inserts no header. *)
Theorem onSubmit_known_client (env : Env.t) (w : World.t) (editingId : option string)
    (data : InvoiceFormData.t) (client : Client.t) :
  List.find (λ c, bool_decide (Client.phone c = InvoiceFormData.clientPhone data))
            (Store.clients (World.store w)) = Some client →
  ∃ new,
    World.calls (snd (onSubmit env editingId data w)) = (new ++ World.calls w)%list
    ∧ (∀ row, InsertClient row ∉ new)
    ∧ (∀ header, InsertInvoice header ∈ new →
                 InvoiceInsert.client_id header = Client.id client
                 ∧ orUndefined editingId = None).
Proof.
  intros Hfind.
  destruct (passesChecks data) eqn:Hp.
  2: { exists []. split; [|split; each_call].
       unfold passesChecks in Hp.
       unfold onSubmit, tryCatch, toast, mbind, mret, Async_bind, Async_ret. simpl.
       destruct (falsy (trim (InvoiceFormData.clientName data))); simpl; [done|].
       destruct (falsy (trim (InvoiceFormData.clientPhone data))); simpl; [done|].
       destruct (falsy (InvoiceFormData.paymentMethod data)); simpl; [done|].
       destruct (length (InvoiceFormData.items data) =? 0)%nat; simpl; [done|].
       destruct (validateItems 0 (InvoiceFormData.items data)); simpl; [done|].
       done. }
  enter_onSubmit Hp. rewrite Hfind. simpl.
  destruct (orUndefined editingId) as [id|] eqn:He; simpl.
  - match goal with |- context [updateInvoice env id ?p w] =>
      destruct (updateInvoice_calls env w id p) as (new & Hc & Hn1 & Hn2);
      destruct (updateInvoice env id p w) as [[[]|e] w2] end; simpl in Hc; simpl.
    all: exists new; split_and!; [done | done |].
    all: intros header Hin; by destruct (Hn2 header).
  - match goal with |- context [addInvoice env ?d w] =>
      destruct (addInvoice_client_calls env w d client eq_refl) as (new & Hc & Hn1 & Hn2);
      destruct (addInvoice env d w) as [[[]|e] w2] end; simpl in Hc; simpl.
    all: exists new; split_and!; [done | done |].
    all: intros header Hin; split; [by apply Hn2 | done].
Qed.

Lemma onSubmit_known_client_witness :
  ∃ header,
    InsertInvoice header
    ∈ World.calls (snd (onSubmit Sample.calm None Sample.shirtForm Scene.regular))
    ∧ InvoiceInsert.client_id header = "c1".
Proof.
  destruct (onSubmit_known_client Sample.calm Scene.regular None Sample.shirtForm
              Sample.jean eq_refl) as (new & Hc & _ & Hh).
  change (World.calls Scene.regular) with (@nil Call) in Hc.
  rewrite app_nil_r in Hc.
  exists (InvoiceInsert.mk "INV-0" "c1" 3500 "CASH" pending None None None None None).
  assert (Hin : InsertInvoice
                  (InvoiceInsert.mk "INV-0" "c1" 3500 "CASH" pending
                                    None None None None None)
                ∈ World.calls (snd (onSubmit Sample.calm None Sample.shirtForm
                                      Scene.regular))).
  { apply list_elem_of_In. vm_compute. auto 20. }
  split; [exact Hin|]. apply Hh. rewrite <- Hc. exact Hin.
Defined.

(** X20. In edit mode the form announces success whatever became of the
    update: for form values that pass the checks and a client that is in
    the snapshot, [onSubmit] ends on the toast "Invoice updated
    successfully!", because [updateInvoice] reports its failures through
    the store and does not throw. When the header update is rejected, the
    tables are as before and the error is flagged, with the success toast
    on top of the error toast. *)
Theorem onSubmit_edit_toast (env : Env.t) (w : World.t) (id : string)
    (data : InvoiceFormData.t) (client : Client.t) :
  passesChecks data = true →
  List.find (λ c, bool_decide (Client.phone c = InvoiceFormData.clientPhone data))
            (Store.clients (World.store w)) = Some client →
  id ≠ "" →
  let w' := snd (onSubmit env (Some id) data w) in
  head (World.toasts w')
  = Some (Toast.mk "Invoice updated successfully!" None default_variant)
  ∧ (∀ message,
       Env.fault env (length (World.calls w)) = Some message →
       World.backend w' = World.backend w
       ∧ Store.error (World.store w') = Some ("Failed to update invoice: " +:+ message)
       ∧ World.toasts w'
         = Toast.mk "Invoice updated successfully!" None default_variant
           :: Toast.mk "Error updating invoice"
                       (Some ("Failed to update invoice: " +:+ message)) destructive
           :: World.toasts w).
Proof.
  intros Hp Hfind Hid w'. subst w'. apply falsy_false in Hid.
  enter_onSubmit Hp. rewrite Hfind. simpl. rewrite Hid. simpl.
  match goal with |- context [updateInvoice env id ?p w] =>
    pose proof (updateInvoice_returns env id p w) as Hr;
    pose proof (updateInvoice_rejected env w id p) as Hrej;
    destruct (updateInvoice env id p w) as [[[]|e] w2]; [|done]
  end.
  simpl in Hrej. simpl. split; [done|].
  intros message F0. destruct (Hrej message F0) as (H1 & H2 & H3 & _).
  by rewrite H1, H2, H3.
Qed.

Lemma onSubmit_edit_toast_witness :
  let w' := snd (onSubmit Scene.offline (Some "INV-1") Sample.shirtForm Scene.regular) in
  World.backend w' = Sample.shop
  ∧ World.toasts w'
    = [Toast.mk "Invoice updated successfully!" None default_variant;
       Toast.mk "Error updating invoice" (Some "Failed to update invoice: offline")
                destructive].
Proof.
  intros w'.
  destruct (onSubmit_edit_toast Scene.offline Scene.regular "INV-1" Sample.shirtForm
              Sample.jean eq_refl eq_refl ltac:(done)) as [_ H].
  destruct (H "offline" eq_refl) as (H1 & _ & H3).
  split; [exact H1 | exact H3].
Defined.

(** X21. When the snapshot has no client with the phone of the form and
    the insert of the new client fails, [onSubmit] stops there: it returns
    normally, the one statement sent is the client insert, carrying the
    name and the phone of the form, the tables and the invoice snapshot
    are as before, and the form's toast "Failed to create client" sits on
    top of the error toast of the store. No invoice is attempted. *)
Theorem onSubmit_client_failure (env : Env.t) (w : World.t) (editingId : option string)
    (data : InvoiceFormData.t) (message : string) :
  passesChecks data = true →
  List.find (λ c, bool_decide (Client.phone c = InvoiceFormData.clientPhone data))
            (Store.clients (World.store w)) = None →
  Env.fault env (length (World.calls w)) = Some message →
  let w' := snd (onSubmit env editingId data w) in
  fst (onSubmit env editingId data w) = Returned tt
  ∧ World.backend w' = World.backend w
  ∧ Store.invoices (World.store w') = Store.invoices (World.store w)
  ∧ (∃ row, World.calls w' = InsertClient row :: World.calls w
            ∧ ClientInsert.name row = InvoiceFormData.clientName data
            ∧ ClientInsert.phone row = InvoiceFormData.clientPhone data)
  ∧ World.toasts w'
    = Toast.mk "Failed to create client" None destructive
      :: Toast.mk "Error adding client" (Some ("Failed to add client: " +:+ message))
                  destructive
      :: World.toasts w.
Proof.
  intros Hp Hfind F0 w'. subst w'. enter_onSubmit Hp. rewrite Hfind. simpl.
  match goal with |- context [addClient env ?cd w] =>
    destruct (addClient_rejected env w cd message F0) as (H0 & H1 & H2 & H3 & H4);
    destruct (addClient env cd w) as [o w1]
  end.
  simpl in H0, H1, H2, H3, H4. subst o. simpl.
  split_and!; [done | done | done | | by rewrite H4].
  destruct H3 as (row & -> & Hn & Hph). by exists row.
Qed.

Lemma onSubmit_client_failure_witness :
  let w' := snd (onSubmit Scene.offline None (World.form Sample.firstDay) Sample.firstDay) in
  World.backend w' = World.backend Sample.firstDay
  ∧ World.toasts w'
    = [Toast.mk "Failed to create client" None destructive;
       Toast.mk "Error adding client" (Some "Failed to add client: offline") destructive].
Proof.
  intros w'.
  destruct (onSubmit_client_failure Scene.offline Sample.firstDay None
              (World.form Sample.firstDay) "offline" eq_refl eq_refl eq_refl)
    as (_ & H1 & _ & _ & H2).
  split; [exact H1 | exact H2].
Defined.

Local Transparent addInvoice addClient updateInvoice.

(** ** The reports *)





















(** ** Creating an invoice *)




(** ** Editing through the form *)

Lemma orUndefined_truthy x s : orUndefined x = Some s → falsy s = false.
Proof.
  unfold orUndefined. destruct x as [v|]; [|done].
  destruct (falsy v) eqn:E; [done|]. by intros [= <-].
Qed.

(** Once the header update is accepted, the headers are the patched ones,
    whatever follows. *)
Lemma updateInvoice_headers env w id updates :
  Env.fault env (length (World.calls w)) = None →
  Backend.invoices (World.backend (snd (updateInvoice env id updates w)))
  = map (patchInvoice id (toUpdateData updates)) (Backend.invoices (World.backend w)).
Proof.
  intros F0. unfold updateInvoice. unfold_steps. simpl. rewrite F0. simpl.
  destruct (InvoicePatch.items updates) as [items|]; simpl.
  - destruct (Env.fault env (S (length (World.calls w)))); simpl; [done|].
    destruct items as [|item items]; simpl.
    + reload HL; by rewrite ?Hb.
    + destruct (Env.fault env (S (S (length (World.calls w))))); simpl; [done|].
      reload HL; by rewrite ?Hb.
  - reload HL; by rewrite ?Hb.
Qed.

Local Opaque addInvoice addClient updateInvoice.

(** X26. Through the form a pickup date, a pickup time or a note of an
    invoice can be set or changed but not cleared: [onSubmit] turns an
    empty field into an absent one, and [updateInvoice] leaves the column
    of an absent field alone. For form values that pass the checks and a
    client of the snapshot, once the header update is accepted the three
    columns of the headers with the edited id hold the form's value where
    the form has one and their old value where it has none, and the other
    headers keep theirs. *)
Theorem onSubmit_edit_keeps (env : Env.t) (w : World.t) (id : string)
    (data : InvoiceFormData.t) (client : Client.t) :
  passesChecks data = true →
  List.find (λ c, bool_decide (Client.phone c = InvoiceFormData.clientPhone data))
            (Store.clients (World.store w)) = Some client →
  id ≠ "" →
  Env.fault env (length (World.calls w)) = None →
  let keep (typed old : option string) :=
    match orUndefined typed with
    | Some value => Some value
    | None => old
    end in
  map (λ r, (InvoiceRow.pickup_date r, InvoiceRow.pickup_time r, InvoiceRow.notes r))
      (Backend.invoices (World.backend (snd (onSubmit env (Some id) data w))))
  = map (λ r, if bool_decide (InvoiceRow.id r = id)
              then (keep (InvoiceFormData.pickupDate data) (InvoiceRow.pickup_date r),
                    keep (InvoiceFormData.pickupTime data) (InvoiceRow.pickup_time r),
                    keep (InvoiceFormData.notes data) (InvoiceRow.notes r))
              else (InvoiceRow.pickup_date r, InvoiceRow.pickup_time r, InvoiceRow.notes r))
        (Backend.invoices (World.backend w)).
Proof.
  intros Hp Hfind Hid F0 keep. apply falsy_false in Hid.
  enter_onSubmit Hp. rewrite Hfind. simpl. rewrite Hid. simpl.
  match goal with |- context [updateInvoice env id ?p w] =>
    pose proof (updateInvoice_headers env w id p F0) as Hh;
    destruct (updateInvoice env id p w) as [[[]|e] w2]
  end; simpl in Hh; simpl; rewrite Hh, map_map.
  all: apply map_ext; intros r; unfold patchInvoice, toUpdateData, asPatch; simpl.
  all: destruct (bool_decide (InvoiceRow.id r = id)); [|done]; simpl; subst keep; simpl.
  all: destruct (orUndefined (InvoiceFormData.pickupDate data)) as [d|] eqn:Ed;
    destruct (orUndefined (InvoiceFormData.pickupTime data)) as [t|] eqn:Et;
    destruct (orUndefined (InvoiceFormData.notes data)) as [n|] eqn:En; simpl.
  all: rewrite ?(orUndefined_truthy _ _ Ed), ?(orUndefined_truthy _ _ Et),
    ?(orUndefined_truthy _ _ En); done.
Qed.

Local Transparent addInvoice addClient updateInvoice.

Lemma onSubmit_edit_keeps_witness :
  let cleared := InvoiceFormData.mk "Jean" "+250788000000" None
                   [FormItem.mk "Shirt wash" 2 1000] "CASH" (Some "") (Some "09:00")
                   None pending in
  let w := World.mk Sample.shop (Store.mk [] [Sample.jean] None None false None false false)
                    ∅ cleared [] [] [] in
  map (λ r, (InvoiceRow.pickup_date r, InvoiceRow.pickup_time r))
      (Backend.invoices (World.backend w))
  = [(Some "2024-01-05", Some "12:30:00"); (Some "2024-01-05", Some "12:30:00")]
  ∧ map (λ r, (InvoiceRow.pickup_date r, InvoiceRow.pickup_time r))
        (Backend.invoices
           (World.backend (snd (onSubmit Sample.calm (Some "INV-1") cleared w))))
    = [(Some "2024-01-05", Some "09:00"); (Some "2024-01-05", Some "12:30:00")].
Proof.
  intros cleared w. split; [reflexivity|].
  pose proof (onSubmit_edit_keeps Sample.calm w "INV-1" cleared Sample.jean
                eq_refl eq_refl ltac:(done) eq_refl) as H.
  apply (f_equal (map (λ x, (fst (fst x), snd (fst x))))) in H.
  rewrite !map_map in H. exact H.
Defined.
